(** * One Pic Edit: image history, detection set, viewport and edit session

    A shallow embedding of the client-side state logic of the application:
    [types.ts], the reply handling of [services/geminiService.ts], the state
    updates of [App.tsx] and the handlers of [components/EditorOverlay.tsx].

    Modelling conventions.
    - A React state cell is a record field; a handler is a function from the
      state it closes over to the state after its [setState] calls.  Handlers
      run one at a time, each on the state the previous one left.
    - An [await] splits a handler in two: what runs before the call and what
      runs when the promise settles.  The remote model is a function handed
      to the handler; its prompt text is not modelled, its reply is.
    - JavaScript numbers that are array cursors are [Z]; the others (scale,
      pixel offsets, box coordinates) are exact rationals [Q].  Rounding of
      IEEE doubles is outside the model: [0.15] is [15/100].
    - [null] and [undefined] are [None]. *)

From Stdlib Require Import ZArith QArith Qminmax Lqa Lia.
From stdpp Require Import base list strings pretty.

Local Open Scope string_scope.
Local Open Scope list_scope.
Local Open Scope Z_scope.

(** ** JavaScript primitives used by the sources *)
Module JS.

(** Truthiness of a [string | null | undefined]: the empty string is falsy. *)
Definition truthy (o : option string) : bool :=
  match o with
  | Some s => negb (String.eqb s "")
  | None => false
  end.

(** [a || b] on such values. *)
Definition or (a b : option string) : option string :=
  if truthy a then a else b.

(** [s || d] where [d] is a string literal. *)
Definition or_default (s : string) (d : string) : string :=
  if String.eqb s "" then d else s.

(** [arr.slice(0, e)]: a negative [e] counts from the end, both bounds are
    clamped to the array. *)
Definition slice0 {A} (arr : list A) (e : Z) : list A :=
  let len := Z.of_nat (length arr) in
  let k := if e <? 0 then Z.max (len + e) 0 else Z.min e len in
  take (Z.to_nat k) arr.

(** [arr[i]] for an integer-valued [i]: [undefined] out of range. *)
Definition index {A} (arr : list A) (i : Z) : option A :=
  if i <? 0 then None else arr !! Z.to_nat i.

(** [s.includes(sub)]. *)
Definition includes (s sub : string) : bool :=
  match String.index 0 sub s with
  | Some _ => true
  | None => false
  end.

End JS.

(** ** types.ts *)
Module Types.

Record BoundingBox := {
  ymin : Q;
  xmin : Q;
  ymax : Q;
  xmax : Q;
}.

(** [isEdited?: boolean]: absent on a freshly detected region. *)
Record DetectedText := {
  id : string;
  text : string;
  isEdited : option bool;
  boundingBox : BoundingBox;
  confidence : Q;
}.

Record ProcessingState := {
  isAnalyzing : bool;
  isEditing : bool;
  error : option string;
}.

Record AppState := {
  originalImage : option string;
  history : list string;
  historyIndex : Z;
  detectedTexts : list DetectedText;
  selectedTextId : option string;
  processing : ProcessingState;
}.

End Types.

(** ** services/geminiService.ts *)
Module GeminiService.

(** One element of the JSON array the detection call answers with:
    [{ text, boundingBox: [ymin, xmin, ymax, xmax] }]. *)
Record RawItem := {
  raw_text : string;
  raw_box : Q * Q * Q * Q;
}.

(** The callback of [rawJson.map((item, index) => ...)]. *)
Definition toDetectedText (index : nat) (item : RawItem) : Types.DetectedText :=
  let '(b0, b1, b2, b3) := raw_box item in
  {| Types.id := "text-" +:+ pretty index;
     Types.text := raw_text item;
     Types.isEdited := None;
     Types.boundingBox :=
       {| Types.ymin := b0; Types.xmin := b1; Types.ymax := b2; Types.xmax := b3 |};
     Types.confidence := 1 |}.

(** What [analyzeImageText] returns for a parsed reply [rawJson]. *)
Definition analyzeImageText (rawJson : list RawItem) : list Types.DetectedText :=
  imap toDetectedText rawJson.

(** A part of a candidate's content: [part.inlineData?.data]. *)
Record Part := {
  inlineData_data : option string;
}.

(** The loop over [parts] in [editImageText]: the first part that carries
    image data decides. *)
Fixpoint firstImage (parts : list Part) : option string :=
  match parts with
  | [] => None
  | part :: rest =>
      if JS.truthy (inlineData_data part)
      then match inlineData_data part with
           | Some d => Some ("data:image/png;base64," +:+ d)
           | None => None
           end
      else firstImage rest
  end.

(** [response.candidates?.[0]?.content?.parts], then the loop. *)
Definition extractImage (parts : option (list Part)) : option string :=
  match parts with
  | Some ps => firstImage ps
  | None => None
  end.

(** An error object as [handleGeminiError] reads it. *)
Record ApiError := {
  status : option Z;
  message : string;
}.

(** [handleGeminiError] followed by [throw error]: the error that leaves
    the [catch] block. *)
Definition handleGeminiError (e : ApiError) : ApiError :=
  let msg := message e in
  if bool_decide (status e = Some 429) || JS.includes msg "quota"
     || JS.includes msg "RESOURCE_EXHAUSTED"
  then {| status := None;
          message := "QUOTA EXCEEDED: You've reached the free tier limit for the Gemini API. Please wait a minute or upgrade to a paid plan at ai.google.dev." |}
  else if bool_decide (status e = Some 403) || JS.includes msg "leaked"
          || JS.includes msg "PERMISSION_DENIED"
  then {| status := None;
          message := "API KEY ERROR: Your key is either invalid, leaked, or restricted. Please check your Vercel Environment Variables." |}
  else if JS.includes msg "safety"
  then {| status := None;
          message := "SAFETY BLOCK: The AI blocked this request because of content safety filters. Try a different image or text." |}
  else e.

(** What the remote call did: it answered, or it (or [getAIClient]) threw. *)
Inductive Reply :=
| Answered (parts : option (list Part))
| Failed (e : ApiError).

(** How the promise of [editImageText] settles. *)
Inductive Settled :=
| Resolved (result : option string)
| Rejected (e : ApiError).

Definition editImageText (reply : Reply) : Settled :=
  match reply with
  | Answered parts => Resolved (extractImage parts)
  | Failed e => Rejected (handleGeminiError e)
  end.

End GeminiService.

(** ** App.tsx *)
Module App.

(** The argument of [useState<AppState>], also what [handleReset] sets. *)
Definition initialState : Types.AppState :=
  {| Types.originalImage := None;
     Types.history := [];
     Types.historyIndex := -1;
     Types.detectedTexts := [];
     Types.selectedTextId := None;
     Types.processing :=
       {| Types.isAnalyzing := false; Types.isEditing := false; Types.error := None |} |}.

(** [state.historyIndex >= 0 ? state.history[state.historyIndex] : state.originalImage] *)
Definition currentImage (state : Types.AppState) : option string :=
  if 0 <=? Types.historyIndex state
  then JS.index (Types.history state) (Types.historyIndex state)
  else Types.originalImage state.

(** [handleFileUpload], the [setState] of [reader.onload] before the
    detection call is issued. *)
Definition handleFileUpload_loaded (base64 : string) (prev : Types.AppState) : Types.AppState :=
  {| Types.originalImage := Some base64;
     Types.history := [];
     Types.historyIndex := -1;
     Types.detectedTexts := [];
     Types.selectedTextId := Types.selectedTextId prev;
     Types.processing :=
       {| Types.isAnalyzing := true;
          Types.isEditing := Types.isEditing (Types.processing prev);
          Types.error := None |} |}.

(** [handleFileUpload], after [await analyzeImageText(base64)] returned. *)
Definition handleFileUpload_analyzed (results : list Types.DetectedText)
    (prev : Types.AppState) : Types.AppState :=
  {| Types.originalImage := Types.originalImage prev;
     Types.history := Types.history prev;
     Types.historyIndex := Types.historyIndex prev;
     Types.detectedTexts := results;
     Types.selectedTextId := Types.selectedTextId prev;
     Types.processing :=
       {| Types.isAnalyzing := false;
          Types.isEditing := Types.isEditing (Types.processing prev);
          Types.error := Types.error (Types.processing prev) |} |}.

(** [handleFileUpload], the [catch] branch. *)
Definition handleFileUpload_failed (err : GeminiService.ApiError)
    (prev : Types.AppState) : Types.AppState :=
  {| Types.originalImage := Types.originalImage prev;
     Types.history := Types.history prev;
     Types.historyIndex := Types.historyIndex prev;
     Types.detectedTexts := Types.detectedTexts prev;
     Types.selectedTextId := Types.selectedTextId prev;
     Types.processing :=
       {| Types.isAnalyzing := false;
          Types.isEditing := Types.isEditing (Types.processing prev);
          Types.error :=
            Some (JS.or_default (GeminiService.message err) "Failed to analyze image.") |} |}.

(** The arguments [EditorOverlay] passes to [onEditText]. *)
Record EditArgs := {
  arg_id : string;
  arg_newText : string;
  arg_font : string;
  arg_color : string;
  arg_strokeColor : string;
  arg_strokeWidth : Q;
  arg_fontSize : Q;
}.

(** The arguments of the call [editImageText(baseToEdit, target.text, ...)]. *)
Record EditRequest := {
  req_base64Image : option string;
  req_originalText : string;
  req_newText : string;
  req_box : Types.BoundingBox;
  req_font : string;
  req_color : string;
  req_strokeColor : string;
  req_strokeWidth : Q;
  req_fontSize : Q;
}.

(** [state.detectedTexts.find(t => t.id === id)] *)
Definition findTarget (state : Types.AppState) (id : string) : option Types.DetectedText :=
  List.find (fun t => String.eqb (Types.id t) id) (Types.detectedTexts state).

(** The guard [if (!target || !state.originalImage) return;]: the target when
    the handler goes on, [None] when it returns at once. *)
Definition handleEditText_target (state : Types.AppState) (id : string)
    : option Types.DetectedText :=
  match findTarget state id with
  | Some target =>
      if JS.truthy (Types.originalImage state) then Some target else None
  | None => None
  end.

(** The first [setState] of [handleEditText]. *)
Definition handleEditText_begin (prev : Types.AppState) : Types.AppState :=
  {| Types.originalImage := Types.originalImage prev;
     Types.history := Types.history prev;
     Types.historyIndex := Types.historyIndex prev;
     Types.detectedTexts := Types.detectedTexts prev;
     Types.selectedTextId := Types.selectedTextId prev;
     Types.processing :=
       {| Types.isAnalyzing := Types.isAnalyzing (Types.processing prev);
          Types.isEditing := true;
          Types.error := None |} |}.

(** The call the handler issues: [baseToEdit = currentImage || state.originalImage]. *)
Definition handleEditText_request (state : Types.AppState) (target : Types.DetectedText)
    (a : EditArgs) : EditRequest :=
  {| req_base64Image := JS.or (currentImage state) (Types.originalImage state);
     req_originalText := Types.text target;
     req_newText := arg_newText a;
     req_box := Types.boundingBox target;
     req_font := arg_font a;
     req_color := arg_color a;
     req_strokeColor := arg_strokeColor a;
     req_strokeWidth := arg_strokeWidth a;
     req_fontSize := arg_fontSize a |}.

(** [prev.detectedTexts.map(t => t.id === id ? { ...t, text: newText, isEdited: true } : t)] *)
Definition markEdited (id newText : string) (regions : list Types.DetectedText)
    : list Types.DetectedText :=
  (fun t =>
     if String.eqb (Types.id t) id
     then {| Types.id := Types.id t;
             Types.text := newText;
             Types.isEdited := Some true;
             Types.boundingBox := Types.boundingBox t;
             Types.confidence := Types.confidence t |}
     else t) <$> regions.

(** The [setState] of the [if (result)] branch: the push onto the history. *)
Definition push (id newText result : string) (prev : Types.AppState) : Types.AppState :=
  let newHistory := JS.slice0 (Types.history prev) (Types.historyIndex prev + 1) ++ [result] in
  {| Types.originalImage := Types.originalImage prev;
     Types.history := newHistory;
     Types.historyIndex := Z.of_nat (length newHistory) - 1;
     Types.detectedTexts := markEdited id newText (Types.detectedTexts prev);
     Types.selectedTextId := Types.selectedTextId prev;
     Types.processing :=
       {| Types.isAnalyzing := Types.isAnalyzing (Types.processing prev);
          Types.isEditing := false;
          Types.error := Types.error (Types.processing prev) |} |}.

(** The [setState] of the [catch] branch of [handleEditText]. *)
Definition handleEditText_catch (errMessage : string) (prev : Types.AppState) : Types.AppState :=
  {| Types.originalImage := Types.originalImage prev;
     Types.history := Types.history prev;
     Types.historyIndex := Types.historyIndex prev;
     Types.detectedTexts := Types.detectedTexts prev;
     Types.selectedTextId := Types.selectedTextId prev;
     Types.processing :=
       {| Types.isAnalyzing := Types.isAnalyzing (Types.processing prev);
          Types.isEditing := false;
          Types.error := Some (JS.or_default errMessage "Editing failed.") |} |}.

(** What runs once the promise of [editImageText] has settled, on the state
    [prev] React holds at that moment. *)
Definition handleEditText_settle (id newText : string) (outcome : GeminiService.Settled)
    (prev : Types.AppState) : Types.AppState :=
  match outcome with
  | GeminiService.Resolved result =>
      match result with
      | Some r =>
          if JS.truthy result
          then push id newText r prev
          else handleEditText_catch
                 "Editing failed. The AI couldn't generate the requested area." prev
      | None =>
          handleEditText_catch
            "Editing failed. The AI couldn't generate the requested area." prev
      end
  | GeminiService.Rejected err => handleEditText_catch (GeminiService.message err) prev
  end.

(** [handleEditText] run to completion with no other handler in between.
    [ai] is the remote model; the second component lists the calls made to
    [editImageText]. *)
Definition handleEditText (ai : EditRequest -> GeminiService.Reply) (a : EditArgs)
    (state : Types.AppState) : Types.AppState * list EditRequest :=
  match handleEditText_target state (arg_id a) with
  | None => (state, [])
  | Some target =>
      let req := handleEditText_request state target a in
      let outcome := GeminiService.editImageText (ai req) in
      (handleEditText_settle (arg_id a) (arg_newText a) outcome (handleEditText_begin state),
       [req])
  end.

(** [handleUndo] *)
Definition handleUndo (state : Types.AppState) : Types.AppState :=
  if 0 <=? Types.historyIndex state
  then {| Types.originalImage := Types.originalImage state;
          Types.history := Types.history state;
          Types.historyIndex := Types.historyIndex state - 1;
          Types.detectedTexts := Types.detectedTexts state;
          Types.selectedTextId := Types.selectedTextId state;
          Types.processing := Types.processing state |}
  else state.

(** [handleRedo] *)
Definition handleRedo (state : Types.AppState) : Types.AppState :=
  if Types.historyIndex state <? Z.of_nat (length (Types.history state)) - 1
  then {| Types.originalImage := Types.originalImage state;
          Types.history := Types.history state;
          Types.historyIndex := Types.historyIndex state + 1;
          Types.detectedTexts := Types.detectedTexts state;
          Types.selectedTextId := Types.selectedTextId state;
          Types.processing := Types.processing state |}
  else state.

(** [handleReset] *)
Definition handleReset (_ : Types.AppState) : Types.AppState := initialState.

(** The operations on the image history, as the user drives them. *)
Inductive HistoryOp :=
| Push (id newText result : string)
| Undo
| Redo.

Definition applyOp (op : HistoryOp) (state : Types.AppState) : Types.AppState :=
  match op with
  | Push id newText result => push id newText result state
  | Undo => handleUndo state
  | Redo => handleRedo state
  end.

(** Runs the operations in order, the head of the list first. *)
Definition runOps (ops : list HistoryOp) (state : Types.AppState) : Types.AppState :=
  fold_left (fun s op => applyOp op s) ops state.

End App.

(** ** components/EditorOverlay.tsx *)
Module EditorOverlay.

Local Open Scope Q_scope.

(** [{ x, y }] in pixels. *)
Record Point := {
  x : Q;
  y : Q;
}.

(** The props the handlers read. *)
Record Props := {
  isProcessing : bool;
  isAnalyzing : bool;
}.

(** The [useState] cells of the component. *)
Record State := {
  editingId : option string;
  tempText : string;
  selectedFont : string;
  selectedColor : string;
  customColor : string;
  useStroke : bool;
  strokeColor : string;
  strokeWidth : Q;
  fontSize : Q;
  scale : Q;
  offset : Point;
  isPanning : bool;
  startPan : Point;
}.

(** The initial values given to [useState]. *)
Definition initialState : State :=
  {| editingId := None;
     tempText := "";
     selectedFont := "original";
     selectedColor := "original";
     customColor := "#000000";
     useStroke := false;
     strokeColor := "#ffffff";
     strokeWidth := 2;
     fontSize := 100;
     scale := 1;
     offset := {| x := 0; y := 0 |};
     isPanning := false;
     startPan := {| x := 0; y := 0 |} |}.

(** The state setters [useState] returns, one per cell. *)
Definition setEditingId (v : option string) (s : State) : State :=
  {| editingId := v; tempText := tempText s; selectedFont := selectedFont s;
     selectedColor := selectedColor s; customColor := customColor s;
     useStroke := useStroke s; strokeColor := strokeColor s;
     strokeWidth := strokeWidth s; fontSize := fontSize s; scale := scale s;
     offset := offset s; isPanning := isPanning s; startPan := startPan s |}.

Definition setTempText (v : string) (s : State) : State :=
  {| editingId := editingId s; tempText := v; selectedFont := selectedFont s;
     selectedColor := selectedColor s; customColor := customColor s;
     useStroke := useStroke s; strokeColor := strokeColor s;
     strokeWidth := strokeWidth s; fontSize := fontSize s; scale := scale s;
     offset := offset s; isPanning := isPanning s; startPan := startPan s |}.

Definition setSelectedFont (v : string) (s : State) : State :=
  {| editingId := editingId s; tempText := tempText s; selectedFont := v;
     selectedColor := selectedColor s; customColor := customColor s;
     useStroke := useStroke s; strokeColor := strokeColor s;
     strokeWidth := strokeWidth s; fontSize := fontSize s; scale := scale s;
     offset := offset s; isPanning := isPanning s; startPan := startPan s |}.

Definition setSelectedColor (v : string) (s : State) : State :=
  {| editingId := editingId s; tempText := tempText s; selectedFont := selectedFont s;
     selectedColor := v; customColor := customColor s;
     useStroke := useStroke s; strokeColor := strokeColor s;
     strokeWidth := strokeWidth s; fontSize := fontSize s; scale := scale s;
     offset := offset s; isPanning := isPanning s; startPan := startPan s |}.

Definition setCustomColor (v : string) (s : State) : State :=
  {| editingId := editingId s; tempText := tempText s; selectedFont := selectedFont s;
     selectedColor := selectedColor s; customColor := v;
     useStroke := useStroke s; strokeColor := strokeColor s;
     strokeWidth := strokeWidth s; fontSize := fontSize s; scale := scale s;
     offset := offset s; isPanning := isPanning s; startPan := startPan s |}.

Definition setUseStroke (v : bool) (s : State) : State :=
  {| editingId := editingId s; tempText := tempText s; selectedFont := selectedFont s;
     selectedColor := selectedColor s; customColor := customColor s;
     useStroke := v; strokeColor := strokeColor s;
     strokeWidth := strokeWidth s; fontSize := fontSize s; scale := scale s;
     offset := offset s; isPanning := isPanning s; startPan := startPan s |}.

Definition setStrokeColor (v : string) (s : State) : State :=
  {| editingId := editingId s; tempText := tempText s; selectedFont := selectedFont s;
     selectedColor := selectedColor s; customColor := customColor s;
     useStroke := useStroke s; strokeColor := v;
     strokeWidth := strokeWidth s; fontSize := fontSize s; scale := scale s;
     offset := offset s; isPanning := isPanning s; startPan := startPan s |}.

Definition setStrokeWidth (v : Q) (s : State) : State :=
  {| editingId := editingId s; tempText := tempText s; selectedFont := selectedFont s;
     selectedColor := selectedColor s; customColor := customColor s;
     useStroke := useStroke s; strokeColor := strokeColor s;
     strokeWidth := v; fontSize := fontSize s; scale := scale s;
     offset := offset s; isPanning := isPanning s; startPan := startPan s |}.

Definition setFontSize (v : Q) (s : State) : State :=
  {| editingId := editingId s; tempText := tempText s; selectedFont := selectedFont s;
     selectedColor := selectedColor s; customColor := customColor s;
     useStroke := useStroke s; strokeColor := strokeColor s;
     strokeWidth := strokeWidth s; fontSize := v; scale := scale s;
     offset := offset s; isPanning := isPanning s; startPan := startPan s |}.

Definition setScale (v : Q) (s : State) : State :=
  {| editingId := editingId s; tempText := tempText s; selectedFont := selectedFont s;
     selectedColor := selectedColor s; customColor := customColor s;
     useStroke := useStroke s; strokeColor := strokeColor s;
     strokeWidth := strokeWidth s; fontSize := fontSize s; scale := v;
     offset := offset s; isPanning := isPanning s; startPan := startPan s |}.

Definition setOffset (v : Point) (s : State) : State :=
  {| editingId := editingId s; tempText := tempText s; selectedFont := selectedFont s;
     selectedColor := selectedColor s; customColor := customColor s;
     useStroke := useStroke s; strokeColor := strokeColor s;
     strokeWidth := strokeWidth s; fontSize := fontSize s; scale := scale s;
     offset := v; isPanning := isPanning s; startPan := startPan s |}.

Definition setIsPanning (v : bool) (s : State) : State :=
  {| editingId := editingId s; tempText := tempText s; selectedFont := selectedFont s;
     selectedColor := selectedColor s; customColor := customColor s;
     useStroke := useStroke s; strokeColor := strokeColor s;
     strokeWidth := strokeWidth s; fontSize := fontSize s; scale := scale s;
     offset := offset s; isPanning := v; startPan := startPan s |}.

Definition setStartPan (v : Point) (s : State) : State :=
  {| editingId := editingId s; tempText := tempText s; selectedFont := selectedFont s;
     selectedColor := selectedColor s; customColor := customColor s;
     useStroke := useStroke s; strokeColor := strokeColor s;
     strokeWidth := strokeWidth s; fontSize := fontSize s; scale := scale s;
     offset := offset s; isPanning := isPanning s; startPan := v |}.

(** [Math.max] and [Math.min] on numbers that are not [NaN]. *)
Definition Math_max (a b : Q) : Q := Qmax a b.
Definition Math_min (a b : Q) : Q := Qmin a b.

(** [handleBoxClick] *)
Definition handleBoxClick (p : Props) (textObj : Types.DetectedText) (s : State) : State :=
  if isProcessing p || isAnalyzing p || isPanning s then s
  else
    setFontSize 100
      (setUseStroke false
         (setSelectedColor "original"
            (setSelectedFont "original"
               (setTempText (Types.text textObj)
                  (setEditingId (Some (Types.id textObj)) s))))).

(** [handleSubmit]: the state afterwards and the calls made to [onEditText]. *)
Definition handleSubmit (s : State) : State * list App.EditArgs :=
  if JS.truthy (editingId s) && negb (String.eqb (tempText s) "")
  then
    match editingId s with
    | Some id =>
        let colorToPass :=
          if String.eqb (selectedColor s) "original" then "original" else customColor s in
        (setEditingId None s,
         [ {| App.arg_id := id;
              App.arg_newText := tempText s;
              App.arg_font := selectedFont s;
              App.arg_color := colorToPass;
              App.arg_strokeColor := if useStroke s then strokeColor s else "none";
              App.arg_strokeWidth := if useStroke s then strokeWidth s else 0;
              App.arg_fontSize := fontSize s |} ])
    | None => (s, [])
    end
  else (s, []).

(** [handleWheel] *)
Definition handleWheel (p : Props) (ctrlKey metaKey : bool) (deltaY : Q) (s : State) : State :=
  if isProcessing p || isAnalyzing p then s
  else if ctrlKey || metaKey then
    let delta := if negb (Qle_bool deltaY 0) then - 0.15 else 0.15 in
    let nextScale := Math_min (Math_max (scale s + delta) 1) 5 in
    let s1 := setScale nextScale s in
    if Qeq_bool nextScale 1 then setOffset {| x := 0; y := 0 |} s1 else s1
  else s.

(** [zoomIn] *)
Definition zoomIn (s : State) : State :=
  setScale (Math_min (scale s + 0.3) 5) s.

(** [zoomOut] *)
Definition zoomOut (s : State) : State :=
  let nextScale := Math_max (scale s - 0.3) 1 in
  let s1 := setScale nextScale s in
  if Qeq_bool nextScale 1 then setOffset {| x := 0; y := 0 |} s1 else s1.

(** [resetZoom] *)
Definition resetZoom (s : State) : State :=
  setOffset {| x := 0; y := 0 |} (setScale 1 s).

(** [handleMouseDown] *)
Definition handleMouseDown (p : Props) (clientX clientY : Q) (s : State) : State :=
  if Qle_bool (scale s) 1 || isProcessing p || isAnalyzing p then s
  else
    setStartPan {| x := clientX - x (offset s); y := clientY - y (offset s) |}
      (setIsPanning true s).

(** [handleMouseMove] *)
Definition handleMouseMove (clientX clientY : Q) (s : State) : State :=
  if negb (isPanning s) || Qle_bool (scale s) 1 then s
  else setOffset {| x := clientX - x (startPan s); y := clientY - y (startPan s) |} s.

(** [handleMouseUp], and the [mouseup] listener on [window]. *)
Definition handleMouseUp (s : State) : State := setIsPanning false s.

(** The four percentages of an inline [style], each written with a
    trailing [%]. *)
Record BoxStyle := {
  top : Q;
  left : Q;
  width : Q;
  height : Q;
}.

(** The [style] of the box drawn for [item] in the [detectedTexts.map]
    callback; the callback is a closure of the render that holds [s]. *)
Definition boxStyle (s : State) (item : Types.DetectedText) : BoxStyle :=
  let b := Types.boundingBox item in
  {| top := Types.ymin b / 10;
     left := Types.xmin b / 10;
     width := (Types.xmax b - Types.xmin b) / 10;
     height := (Types.ymax b - Types.ymin b) / 10 |}.



(** What a render hands to the browser for the image layer: the transform
    [translate(offset.x px, offset.y px) scale(scale)] of the wrapper, and
    inside it one box per region unless a detection pass is running. *)
Record Layer := {
  translate : Point;
  zoom : Q;
  boxes : list BoxStyle;
}.

Definition render (p : Props) (detectedTexts : list Types.DetectedText) (s : State) : Layer :=
  {| translate := offset s;
     zoom := scale s;
     boxes := if isAnalyzing p then [] else boxStyle s <$> detectedTexts |}.

(** What the user can do to the component. *)
Inductive Event :=
| Wheel (ctrlKey metaKey : bool) (deltaY : Q)
| ZoomIn
| ZoomOut
| ResetZoom
| MouseDown (clientX clientY : Q)
| MouseMove (clientX clientY : Q)
| MouseUp
| BoxClick (textObj : Types.DetectedText)
| Submit
| Cancel
| ChangeText (v : string)
| ChangeFont (v : string)
| ChangeColor (v : string)
| ChangeCustomColor (v : string)
| ChangeUseStroke (v : bool)
| ChangeStrokeColor (v : string)
| ChangeStrokeWidth (v : Q)
| ChangeFontSize (v : Q).

(** The handler each event is wired to, under the props of that render. *)
Definition step (p : Props) (e : Event) (s : State) : State :=
  match e with
  | Wheel ctrlKey metaKey deltaY => handleWheel p ctrlKey metaKey deltaY s
  | ZoomIn => zoomIn s
  | ZoomOut => zoomOut s
  | ResetZoom => resetZoom s
  | MouseDown cx cy => handleMouseDown p cx cy s
  | MouseMove cx cy => handleMouseMove cx cy s
  | MouseUp => handleMouseUp s
  | BoxClick textObj => handleBoxClick p textObj s
  | Submit => fst (handleSubmit s)
  | Cancel => setEditingId None s
  | ChangeText v => setTempText v s
  | ChangeFont v => setSelectedFont v s
  | ChangeColor v => setSelectedColor v s
  | ChangeCustomColor v => setCustomColor v s
  | ChangeUseStroke v => setUseStroke v s
  | ChangeStrokeColor v => setStrokeColor v s
  | ChangeStrokeWidth v => setStrokeWidth v s
  | ChangeFontSize v => setFontSize v s
  end.

(** Runs the events in order, the head of the list first. *)
Definition run (evs : list (Props * Event)) (s : State) : State :=
  fold_left (fun s pe => step (fst pe) (snd pe) s) evs s.

End EditorOverlay.

(** * Vocabulary of the properties *)

(** The cursor is [-1] (the baseline) or the position of a stored snapshot. *)
Definition cursor_ok (s : Types.AppState) : Prop :=
  -1 <= Types.historyIndex s <= Z.of_nat (length (Types.history s)) - 1.

(** The region an edit leaves where [t] was. *)
Definition edited (newText : string) (t : Types.DetectedText) : Types.DetectedText :=
  {| Types.id := Types.id t;
     Types.text := newText;
     Types.isEdited := Some true;
     Types.boundingBox := Types.boundingBox t;
     Types.confidence := Types.confidence t |}.

(** The identifiers of a detection set, in order. *)
Definition ids (regions : list Types.DetectedText) : list string :=
  Types.id <$> regions.

(** No identifier of an earlier detection set is carried by a region of a
    later one. *)
Definition reuses_no_id (earlier later : list Types.DetectedText) : Prop :=
  forall t t', t ∈ earlier -> t' ∈ later -> Types.id t' <> Types.id t.

Module Viewport.

Import EditorOverlay.
Local Open Scope Q_scope.


(** Props of a render during which nothing is being processed. *)
Definition idle : Props := {| isProcessing := false; isAnalyzing := false |}.


(** Two points with equal coordinates as rationals. *)
Definition same_point (a b : Point) : Prop := x a == x b /\ y a == y b.





(** An event that neither starts nor ends a pan gesture. *)
Definition keepsPan (pe : Props * Event) : Prop :=
  match snd pe with
  | MouseDown _ _ | MouseUp => False
  | _ => True
  end.

End Viewport.

(** Sample data for the executable checks. *)
Module Sample.

Definition open_sign : GeminiService.RawItem :=
  {| GeminiService.raw_text := "OPEN";
     GeminiService.raw_box := (100%Q, 200%Q, 150%Q, 400%Q) |}.

Definition sale_sign : GeminiService.RawItem :=
  {| GeminiService.raw_text := "SALE";
     GeminiService.raw_box := (500%Q, 50%Q, 640%Q, 900%Q) |}.

(** A photo has been uploaded and one region was detected in it. *)
Definition loaded : Types.AppState :=
  App.handleFileUpload_analyzed (GeminiService.analyzeImageText [open_sign])
    (App.handleFileUpload_loaded "data:image/png;base64,AAAA" App.initialState).

Definition args : App.EditArgs :=
  {| App.arg_id := "text-0";
     App.arg_newText := "CLOSED";
     App.arg_font := "original";
     App.arg_color := "original";
     App.arg_strokeColor := "none";
     App.arg_strokeWidth := 0%Q;
     App.arg_fontSize := 100%Q |}.

(** A second photo is uploaded afterwards, with another region in it. *)
Definition reloaded : Types.AppState :=
  App.handleFileUpload_analyzed (GeminiService.analyzeImageText [sale_sign])
    (App.handleFileUpload_loaded "data:image/png;base64,CCCC" loaded).


(** A model that answers every request with one image part. *)
Definition painter (_ : App.EditRequest) : GeminiService.Reply :=
  GeminiService.Answered (Some [ {| GeminiService.inlineData_data := Some "BBBB" |} ]).



(** The viewport after one click on the plus button. *)
Definition zoomed : EditorOverlay.State :=
  EditorOverlay.zoomIn EditorOverlay.initialState.

End Sample.

(** * Further code of the sources *)

From Stdlib Require Import Qround.

(** ** services/geminiService.ts: what is sent to the model *)
Module GeminiRequest.

(** [s.split(sep)] for a one-character separator. *)
Fixpoint split (sep : Ascii.ascii) (s : string) : list string :=
  match s with
  | EmptyString => [EmptyString]
  | String c rest =>
      if Ascii.eqb c sep then EmptyString :: split sep rest
      else match split sep rest with
           | piece :: pieces => String c piece :: pieces
           | [] => [String c EmptyString]
           end
  end.

(** The character [,]. *)
Definition comma : Ascii.ascii := Ascii.ascii_of_nat 44.

(** [base64Image.split(',')[1]]: [None] stands for [undefined]. *)
Definition base64Data (base64Image : string) : option string :=
  split comma base64Image !! 1%nat.

(** The double quote of the template strings. *)
Definition quote : string := String (Ascii.ascii_of_nat 34) EmptyString.

(** [fontInstruction], [colorInstruction] and [strokeInstruction] of
    [editImageText]; [str] is the conversion of a number to a string that a
    template literal applies. *)
Definition fontInstruction (font : string) : string :=
  if negb (String.eqb font "original")
  then "Use font: " +:+ quote +:+ font +:+ quote +:+ "."
  else "Match font.".

Definition colorInstruction (color : string) : string :=
  if negb (String.eqb color "original")
  then "Color: " +:+ quote +:+ color +:+ quote +:+ "."
  else "Match color.".

Definition strokeInstruction (str : Q -> string) (strokeColor : string) (strokeWidth : Q)
    : string :=
  if negb (String.eqb strokeColor "none")
  then "Stroke: " +:+ str strokeWidth +:+ "px " +:+ strokeColor +:+ "."
  else "".

End GeminiRequest.

(** ** App.tsx: the error banner, the download and the handlers as events *)
Module AppShell.

(** [state.processing.error.includes("QUOTA")], which picks the icon, the
    title, the free-tier notice and the retry button of the banner. *)
Definition isQuotaError (error : string) : bool := JS.includes error "QUOTA".

(** The banner of [{state.processing.error && (...)}]: its title and
    whether the retry button is drawn; [None] when no banner is drawn. *)
Definition banner (state : Types.AppState) : option (string * bool) :=
  if JS.truthy (Types.error (Types.processing state))
  then match Types.error (Types.processing state) with
       | Some error =>
           Some (if isQuotaError error then "Rate Limit Reached" else "Service Issue",
                 isQuotaError error)
       | None => None
       end
  else None.

(** The [onClick] of the dismiss button. *)
Definition dismissError (p : Types.AppState) : Types.AppState :=
  {| Types.originalImage := Types.originalImage p;
     Types.history := Types.history p;
     Types.historyIndex := Types.historyIndex p;
     Types.detectedTexts := Types.detectedTexts p;
     Types.selectedTextId := Types.selectedTextId p;
     Types.processing :=
       {| Types.isAnalyzing := Types.isAnalyzing (Types.processing p);
          Types.isEditing := Types.isEditing (Types.processing p);
          Types.error := None |} |}.

(** [imageSrc={currentImage || state.originalImage}], the image on screen. *)
Definition imageSrc (state : Types.AppState) : option string :=
  JS.or (App.currentImage state) (Types.originalImage state).

(** What can happen to the state of [App]: a user action, or the settling
    of a promise a handler awaits. *)
Inductive Event :=
| FileLoaded (base64 : string)
| AnalysisResolved (results : list Types.DetectedText)
| AnalysisRejected (err : GeminiService.ApiError)
| EditRequested (a : App.EditArgs)
| EditSettled (id newText : string) (outcome : GeminiService.Settled)
| UndoClicked
| RedoClicked
| ResetClicked
| ErrorDismissed.

Definition step (e : Event) (state : Types.AppState) : Types.AppState :=
  match e with
  | FileLoaded base64 => App.handleFileUpload_loaded base64 state
  | AnalysisResolved results => App.handleFileUpload_analyzed results state
  | AnalysisRejected err => App.handleFileUpload_failed err state
  | EditRequested a =>
      match App.handleEditText_target state (App.arg_id a) with
      | Some _ => App.handleEditText_begin state
      | None => state
      end
  | EditSettled id newText outcome => App.handleEditText_settle id newText outcome state
  | UndoClicked => App.handleUndo state
  | RedoClicked => App.handleRedo state
  | ResetClicked => App.handleReset state
  | ErrorDismissed => dismissError state
  end.

(** Runs the events in order, the head of the list first. *)
Definition run (evs : list Event) (state : Types.AppState) : Types.AppState :=
  fold_left (fun s e => step e s) evs state.

(** [type Resolution] *)
Inductive Resolution := original | res4k | res2k | res1080p.

(** What the link that [handleDownload] clicks points to: the current
    image itself, or the canvas on which it was redrawn. *)
Inductive Href :=
| Direct (src : string)
| Canvas (src : string) (width height : Q).

Record Download := {
  href : Href;
  download : string;
}.

(** [(customFilename.trim() || 'export') + '.png']; [trim] is
    [String.prototype.trim]. *)
Definition finalName (trim : string -> string) (customFilename : string) : string :=
  JS.or_default (trim customFilename) "export" +:+ ".png".

(** The [let targetWidth = img.width; switch (downloadRes) ...] of [img.onload]. *)
Definition targetWidth (downloadRes : Resolution) (imgWidth : Q) : Q :=
  match downloadRes with
  | res4k => 3840%Q
  | res2k => 2560%Q
  | res1080p => 1920%Q
  | original => imgWidth
  end.

(** [handleDownload]: the download it triggers, if any.  [imgWidth] and
    [imgHeight] are the size of the current image once loaded, [hasContext]
    tells whether [canvas.getContext('2d')] returned a context. *)
Definition handleDownload (trim : string -> string) (downloadRes : Resolution)
    (customFilename : string) (imgWidth imgHeight : Q) (hasContext : bool)
    (state : Types.AppState) : option Download :=
  if JS.truthy (App.currentImage state)
  then match App.currentImage state with
       | Some currentImage =>
           match downloadRes with
           | original =>
               Some {| href := Direct currentImage;
                       download := finalName trim customFilename |}
           | _ =>
               let width := targetWidth downloadRes imgWidth in
               let aspectRatio := (imgHeight / imgWidth)%Q in
               if hasContext
               then Some {| href := Canvas currentImage width (width * aspectRatio)%Q;
                            download := finalName trim customFilename |}
               else None
           end
       | None => None
       end
  else None.

End AppShell.

(** ** components/EditorOverlay.tsx: the simulated progress *)
Module Progress.

Local Open Scope Q_scope.

(** The updater of [setProgress] that the interval runs every 50 ms. *)
Definition tick (prev : Q) : Q :=
  if negb (Qle_bool 40 prev) then prev + 3
  else if negb (Qle_bool 80 prev) then prev + 0.8
  else if negb (Qle_bool 98 prev) then prev + 0.2
  else prev.

(** The progress after [n] ticks of a detection pass, which starts with
    [setProgress(0)]. *)
Definition after (n : nat) : Q := Nat.iter n tick 0.

(** [Math.floor(progress)], the percentage on screen. *)
Definition shown (progress : Q) : Z := Qfloor progress.

End Progress.

(** * Vocabulary of the further properties *)

(** Every stored snapshot is a non-empty string. *)
Definition snapshots_ok (s : Types.AppState) : Prop :=
  Forall (fun snapshot => snapshot <> "") (Types.history s).

(** The message [handleGeminiError] throws for a rate-limit error. *)
Definition quotaMessage : string :=
  "QUOTA EXCEEDED: You've reached the free tier limit for the Gemini API. Please wait a minute or upgrade to a paid plan at ai.google.dev.".

(** The messages [handleGeminiError] throws for a key error and for a
    safety block. *)
Definition keyMessage : string :=
  "API KEY ERROR: Your key is either invalid, leaked, or restricted. Please check your Vercel Environment Variables.".

Definition safetyMessage : string :=
  "SAFETY BLOCK: The AI blocked this request because of content safety filters. Try a different image or text.".

(** None of the marks of a rate-limit error. *)
Definition not_quota (err : GeminiService.ApiError) : Prop :=
  GeminiService.status err <> Some 429
  /\ JS.includes (GeminiService.message err) "quota" = false
  /\ JS.includes (GeminiService.message err) "RESOURCE_EXHAUSTED" = false.

(** One of the marks of a key error. *)
Definition key_marked (err : GeminiService.ApiError) : Prop :=
  GeminiService.status err = Some 403
  \/ JS.includes (GeminiService.message err) "leaked" = true
  \/ JS.includes (GeminiService.message err) "PERMISSION_DENIED" = true.

(** The state [s] with its cursor moved to [i]. *)
Definition at_cursor (i : Z) (s : Types.AppState) : Types.AppState :=
  {| Types.originalImage := Types.originalImage s;
     Types.history := Types.history s;
     Types.historyIndex := i;
     Types.detectedTexts := Types.detectedTexts s;
     Types.selectedTextId := Types.selectedTextId s;
     Types.processing := Types.processing s |}.

(** The bounding boxes of a detection set, in order. *)
Definition boxes_of (regions : list Types.DetectedText) : list Types.BoundingBox :=
  Types.boundingBox <$> regions.

(** A part of a reply carries no image data. *)
Definition no_image (part : GeminiService.Part) : Prop :=
  JS.truthy (GeminiService.inlineData_data part) = false.

(** A string without a comma. *)
Fixpoint comma_free (s : string) : Prop :=
  match s with
  | EmptyString => True
  | String c rest => Ascii.eqb c GeminiRequest.comma = false /\ comma_free rest
  end.

(** An event on the viewport, and an event on the edit form. *)
Definition onViewport (e : EditorOverlay.Event) : Prop :=
  match e with
  | EditorOverlay.Wheel _ _ _ | EditorOverlay.ZoomIn | EditorOverlay.ZoomOut
  | EditorOverlay.ResetZoom | EditorOverlay.MouseDown _ _
  | EditorOverlay.MouseMove _ _ | EditorOverlay.MouseUp => True
  | _ => False
  end.

(** The image a download link was made from. *)
Definition source (h : AppShell.Href) : string :=
  match h with
  | AppShell.Direct src => src
  | AppShell.Canvas src _ _ => src
  end.

(** The calls to [onEditText] made while the events run, in order. *)
Fixpoint submitted (evs : list (EditorOverlay.Props * EditorOverlay.Event))
    (s : EditorOverlay.State) : list App.EditArgs :=
  match evs with
  | [] => []
  | pe :: rest =>
      match snd pe with
      | EditorOverlay.Submit => snd (EditorOverlay.handleSubmit s)
      | _ => []
      end ++ submitted rest (EditorOverlay.step (fst pe) (snd pe) s)
  end.

(** The props [App] hands to the overlay. *)
Definition propsOf (state : Types.AppState) : EditorOverlay.Props :=
  {| EditorOverlay.isProcessing := Types.isEditing (Types.processing state);
     EditorOverlay.isAnalyzing := Types.isAnalyzing (Types.processing state) |}.

(** A render during which an edit or a detection is running. *)
Definition busy (pe : EditorOverlay.Props * EditorOverlay.Event) : Prop :=
  EditorOverlay.isProcessing (fst pe) = true \/ EditorOverlay.isAnalyzing (fst pe) = true.

(** A movement of the mouse. *)
Definition isMove (pe : EditorOverlay.Props * EditorOverlay.Event) : Prop :=
  match snd pe with
  | EditorOverlay.MouseMove _ _ => True
  | _ => False
  end.

(** The call an untouched form makes for the region [t]. *)
Definition matchOriginal (t : Types.DetectedText) : App.EditArgs :=
  {| App.arg_id := Types.id t;
     App.arg_newText := Types.text t;
     App.arg_font := "original";
     App.arg_color := "original";
     App.arg_strokeColor := "none";
     App.arg_strokeWidth := 0%Q;
     App.arg_fontSize := 100%Q |}.

(** The cells of the edit form. *)
Definition draft (s : EditorOverlay.State) :=
  (EditorOverlay.editingId s, EditorOverlay.tempText s, EditorOverlay.selectedFont s,
   EditorOverlay.selectedColor s, EditorOverlay.customColor s,
   EditorOverlay.useStroke s, EditorOverlay.strokeColor s,
   EditorOverlay.strokeWidth s, EditorOverlay.fontSize s).

(** The cells of the viewport. *)
Definition viewport (s : EditorOverlay.State) :=
  (EditorOverlay.scale s, EditorOverlay.offset s, EditorOverlay.isPanning s,
   EditorOverlay.startPan s).

(** More sample data for the executable checks. *)
Module Demo.

(** Three edits were applied to the loaded photo. *)
Definition thrice : Types.AppState :=
  App.runOps [App.Push "text-0" "A" "img-a"; App.Push "text-0" "B" "img-b";
              App.Push "text-0" "C" "img-c"] Sample.loaded.

(** An error the service answers with when the quota is used up. *)
Definition quota_error : GeminiService.ApiError :=
  {| GeminiService.status := Some 429; GeminiService.message := "Too Many Requests" |}.

(** An error the service answers with when the key is refused, in a
    message that also speaks of safety. *)
Definition key_error : GeminiService.ApiError :=
  {| GeminiService.status := Some 403;
     GeminiService.message := "blocked for safety of the account" |}.

(** A form left with a custom colour and a stroke by an earlier session. *)
Definition styled : EditorOverlay.State :=
  EditorOverlay.setStrokeWidth 4%Q
    (EditorOverlay.setUseStroke true
       (EditorOverlay.setSelectedColor "custom"
          (EditorOverlay.setCustomColor "#ff0000"
             (EditorOverlay.setSelectedFont "Verdana, Geneva, sans-serif"
                EditorOverlay.initialState)))).

(** A reply whose first part is text and whose second part is an image. *)
Definition text_then_image : list GeminiService.Part :=
  [ {| GeminiService.inlineData_data := None |};
    {| GeminiService.inlineData_data := Some "BBBB" |} ].

End Demo.

(** * Properties *)

(** ** JavaScript primitives *)
Section JSFacts.
Context {A : Type}.
Implicit Types (arr : list A) (e i : Z).

Lemma slice0_take arr e :
  0 <= e -> JS.slice0 arr e = take (Z.to_nat e) arr.
Proof.
  intros He. unfold JS.slice0.
  destruct (e <? 0) eqn:Hlt; [lia|].
  destruct (Z.min_spec e (Z.of_nat (length arr))) as [[Hle ->]|[Hle ->]]; [done|].
  rewrite Nat2Z.id, !take_ge; [done|lia|lia].
Qed.

End JSFacts.

(** ** The image history of App.tsx *)
Section HistoryFacts.
Implicit Types (s prev : Types.AppState) (ops : list App.HistoryOp).

Lemma push_cursor id newText result prev :
  Types.historyIndex (App.push id newText result prev)
  = Z.of_nat (length (Types.history (App.push id newText result prev))) - 1.
Proof. reflexivity. Qed.

Lemma push_cursor_ok id newText result prev :
  cursor_ok (App.push id newText result prev).
Proof.
  unfold cursor_ok. rewrite push_cursor. simpl. rewrite length_app. simpl. lia.
Qed.

Lemma push_history id newText result prev :
  cursor_ok prev ->
  Types.history (App.push id newText result prev)
  = take (Z.to_nat (Types.historyIndex prev + 1)) (Types.history prev) ++ [result].
Proof.
  intros [Hlo Hhi]. simpl. rewrite slice0_take by lia. reflexivity.
Qed.


Lemma handleUndo_cursor_ok s : cursor_ok s -> cursor_ok (App.handleUndo s).
Proof.
  unfold cursor_ok, App.handleUndo. intros Hs.
  destruct (0 <=? _) eqn:Hge; simpl; lia.
Qed.

Lemma handleRedo_cursor_ok s : cursor_ok s -> cursor_ok (App.handleRedo s).
Proof.
  unfold cursor_ok, App.handleRedo. intros Hs.
  destruct (_ <? _) eqn:Hlt; simpl; lia.
Qed.

Lemma applyOp_cursor_ok op s : cursor_ok s -> cursor_ok (App.applyOp op s).
Proof.
  destruct op; simpl;
    auto using push_cursor_ok, handleUndo_cursor_ok, handleRedo_cursor_ok.
Qed.

Lemma applyOp_originalImage op s :
  Types.originalImage (App.applyOp op s) = Types.originalImage s.
Proof.
  destruct op; simpl; [done| |].
  - unfold App.handleUndo. by destruct (0 <=? _).
  - unfold App.handleRedo. by destruct (_ <? _).
Qed.

Lemma runOps_snoc ops op s :
  App.runOps (ops ++ [op]) s = App.applyOp op (App.runOps ops s).
Proof. unfold App.runOps. by rewrite fold_left_app. Qed.

Lemma runOps_cursor_ok ops s : cursor_ok s -> cursor_ok (App.runOps ops s).
Proof.
  intros Hs. induction ops as [|op ops IH] using rev_ind; [done|].
  rewrite runOps_snoc. by apply applyOp_cursor_ok.
Qed.

Lemma runOps_originalImage ops s :
  Types.originalImage (App.runOps ops s) = Types.originalImage s.
Proof.
  induction ops as [|op ops IH] using rev_ind; [done|].
  by rewrite runOps_snoc, applyOp_originalImage.
Qed.

Lemma currentImage_cursor s :
  cursor_ok s ->
  (0 <= Types.historyIndex s ->
     exists snapshot,
       Types.history s !! Z.to_nat (Types.historyIndex s) = Some snapshot
       /\ App.currentImage s = Some snapshot)
  /\ (Types.historyIndex s = -1 -> App.currentImage s = Types.originalImage s).
Proof.
  intros [Hlo Hhi]. unfold App.currentImage, JS.index. split.
  - intros Hge.
    destruct (lookup_lt_is_Some_2 (Types.history s) (Z.to_nat (Types.historyIndex s)))
      as [snapshot Hsnap]; [lia|].
    exists snapshot. split; [done|].
    destruct (0 <=? _) eqn:H0; [|lia].
    destruct (_ <? 0) eqn:H1; [lia|done].
  - intros ->. reflexivity.
Qed.

End HistoryFacts.

(** ** Claims on the image history *)



(** C3. From a freshly reset history (an upload with its baseline, or the
    reset button), after any prefix of any sequence of pushes, undos and
    redos the cursor lies in [-1 .. length - 1]; when it is at least 0 the
    current image is the snapshot stored at the cursor, and when it is -1
    the current image is the baseline. *)
Theorem history_cursor_invariant
    (baseline : string) (before : Types.AppState) (ops : list App.HistoryOp) (n : nat) :
  let uploaded := App.runOps (take n ops) (App.handleFileUpload_loaded baseline before) in
  let cleared := App.runOps (take n ops) (App.handleReset before) in
  (-1 <= Types.historyIndex uploaded <= Z.of_nat (length (Types.history uploaded)) - 1
   /\ (0 <= Types.historyIndex uploaded ->
       exists snapshot,
         Types.history uploaded !! Z.to_nat (Types.historyIndex uploaded) = Some snapshot
         /\ App.currentImage uploaded = Some snapshot)
   /\ (Types.historyIndex uploaded = -1 -> App.currentImage uploaded = Some baseline))
  /\ (-1 <= Types.historyIndex cleared <= Z.of_nat (length (Types.history cleared)) - 1
      /\ (0 <= Types.historyIndex cleared ->
          exists snapshot,
            Types.history cleared !! Z.to_nat (Types.historyIndex cleared) = Some snapshot
            /\ App.currentImage cleared = Some snapshot)
      /\ (Types.historyIndex cleared = -1 -> App.currentImage cleared = None)).
Proof.
  intros uploaded cleared.
  assert (Hu : cursor_ok uploaded).
  { apply runOps_cursor_ok. unfold cursor_ok. simpl. lia. }
  assert (Hc : cursor_ok cleared).
  { apply runOps_cursor_ok. unfold cursor_ok. simpl. lia. }
  destruct (currentImage_cursor uploaded Hu) as [Hu1 Hu2].
  destruct (currentImage_cursor cleared Hc) as [Hc1 Hc2].
  split; (split; [done|split; [done|]]).
  - intros Hm. rewrite (Hu2 Hm). unfold uploaded. by rewrite runOps_originalImage.
  - intros Hm. rewrite (Hc2 Hm). unfold cleared. by rewrite runOps_originalImage.
Qed.

(** C10. [handleUndo] and [handleRedo] change nothing but the cursor: the
    regions with their text and edited mark, the baseline, the stored
    snapshots, the selection and the processing flags stay as they were.
    So after an edit is undone its regions still carry the new text and the
    edited mark. *)
Theorem undo_redo_frame (s : Types.AppState) (id newText result : string) :
  (Types.detectedTexts (App.handleUndo s) = Types.detectedTexts s
   /\ Types.originalImage (App.handleUndo s) = Types.originalImage s
   /\ Types.processing (App.handleUndo s) = Types.processing s
   /\ Types.history (App.handleUndo s) = Types.history s
   /\ Types.selectedTextId (App.handleUndo s) = Types.selectedTextId s)
  /\ (Types.detectedTexts (App.handleRedo s) = Types.detectedTexts s
      /\ Types.originalImage (App.handleRedo s) = Types.originalImage s
      /\ Types.processing (App.handleRedo s) = Types.processing s
      /\ Types.history (App.handleRedo s) = Types.history s
      /\ Types.selectedTextId (App.handleRedo s) = Types.selectedTextId s)
  /\ Types.detectedTexts (App.handleUndo (App.push id newText result s))
     = App.markEdited id newText (Types.detectedTexts s)
  /\ Forall (fun t => Types.id t = id ->
                      Types.text t = newText /\ Types.isEdited t = Some true)
       (Types.detectedTexts (App.handleUndo (App.push id newText result s))).
Proof.
  split; [|split; [|split]].
  - unfold App.handleUndo. by destruct (0 <=? _).
  - unfold App.handleRedo. by destruct (_ <? _).
  - unfold App.handleUndo. by destruct (0 <=? _).
  - assert (Hd : Types.detectedTexts (App.handleUndo (App.push id newText result s))
                 = App.markEdited id newText (Types.detectedTexts s)).
    { unfold App.handleUndo. by destruct (0 <=? _). }
    rewrite Hd. unfold App.markEdited. apply Forall_fmap, Forall_forall.
    intros t _. simpl.
    destruct (String.eqb_spec (Types.id t) id) as [Heq|Hne]; simpl; [done|].
    intros Hid. by destruct Hne.
Qed.

(** ** The edit submission of App.tsx *)
Section EditFacts.
Implicit Types (s state prev : Types.AppState) (t target : Types.DetectedText).

Lemma firstImage_truthy parts r :
  GeminiService.firstImage parts = Some r -> JS.truthy (Some r) = true.
Proof.
  induction parts as [|part rest IH]; simpl; [done|].
  destruct (JS.truthy (GeminiService.inlineData_data part)); [|done].
  destruct (GeminiService.inlineData_data part) as [d|]; [|done].
  intros [= <-]. reflexivity.
Qed.

Lemma editImageText_truthy reply r :
  GeminiService.editImageText reply = GeminiService.Resolved (Some r) ->
  JS.truthy (Some r) = true.
Proof.
  destruct reply as [[ps|]|e]; simpl; [|done|done].
  intros [= H]. by eapply firstImage_truthy.
Qed.

Lemma findTarget_lookup state id target :
  App.findTarget state id = Some target ->
  Types.id target = id
  /\ exists i, Types.detectedTexts state !! i = Some target.
Proof.
  unfold App.findTarget. intros Hfind.
  apply find_some in Hfind as [Hin Heq].
  split; [by apply String.eqb_eq|].
  by apply list_elem_of_lookup, list_elem_of_In.
Qed.



Lemma markEdited_lookup id newText (regions : list Types.DetectedText) i t :
  regions !! i = Some t -> Types.id t = id ->
  App.markEdited id newText regions !! i = Some (edited newText t).
Proof.
  intros Hi Hid. unfold App.markEdited.
  rewrite list_lookup_fmap, Hi. simpl.
  by destruct (String.eqb_spec (Types.id t) id).
Qed.


End EditFacts.





(** ** The detection set *)
Section DetectionFacts.
Implicit Types (rawJson : list GeminiService.RawItem).

Lemma toDetectedText_id index item :
  Types.id (GeminiService.toDetectedText index item) = "text-" +:+ pretty index.
Proof.
  unfold GeminiService.toDetectedText.
  by destruct (GeminiService.raw_box item) as [[[b0 b1] b2] b3].
Qed.

Lemma analyzeImageText_ids rawJson :
  ids (GeminiService.analyzeImageText rawJson)
  = (fun index => "text-" +:+ pretty index) <$> seq 0 (length rawJson).
Proof.
  unfold ids, GeminiService.analyzeImageText.
  rewrite fmap_imap.
  rewrite (imap_ext _ (fun index _ => "text-" +:+ pretty index)).
  - apply imap_seq_0.
  - intros index item _. simpl. apply toDetectedText_id.
Qed.

Lemma text_id_inj : Inj (=) (=) (fun index : nat => "text-" +:+ pretty index).
Proof.
  intros i j Hij. simpl in Hij.
  apply (inj (String.append "text-")) in Hij. by apply (inj pretty).
Qed.

Lemma analyzeImageText_lookup_id rawJson i t :
  GeminiService.analyzeImageText rawJson !! i = Some t ->
  Types.id t = "text-" +:+ pretty i.
Proof.
  unfold GeminiService.analyzeImageText. rewrite list_lookup_imap.
  destruct (rawJson !! i) as [item|]; simpl; [|done].
  intros [= <-]. apply toDetectedText_id.
Qed.

End DetectionFacts.

(** C7, as stated, fails: identifiers are reused by a later pass.  The first
    upload detects the region "OPEN" and names it "text-0"; the second upload
    replaces the set wholesale and names the region "SALE" "text-0" again. *)
Lemma detection_ids_reused_by_later_pass :
  ids (Types.detectedTexts Sample.loaded) = ["text-0"]
  /\ Types.text <$> Types.detectedTexts Sample.loaded = ["OPEN"]
  /\ ids (Types.detectedTexts Sample.reloaded) = ["text-0"]
  /\ Types.text <$> Types.detectedTexts Sample.reloaded = ["SALE"]
  /\ ~ reuses_no_id (Types.detectedTexts Sample.loaded)
         (Types.detectedTexts Sample.reloaded).
Proof.
  repeat (split; [reflexivity|]).
  intros Hfresh.
  apply (Hfresh (GeminiService.toDetectedText 0 Sample.open_sign)
                (GeminiService.toDetectedText 0 Sample.sale_sign)).
  - apply list_elem_of_here.
  - apply list_elem_of_here.
  - reflexivity.
Qed.

(** C7, amended. A detection pass names its regions by position, "text-"
    followed by the index, so the identifiers of one pass are pairwise
    distinct and the pass replaces the detection set wholesale; the naming
    depends on nothing but the position, so a later pass gives the region at
    a position the identifier the earlier pass gave there. *)
Theorem detection_ids_by_position
    (rawJson later : list GeminiService.RawItem) (prev : Types.AppState) :
  ids (GeminiService.analyzeImageText rawJson)
  = (fun index => "text-" +:+ pretty index) <$> seq 0 (length rawJson)
  /\ NoDup (ids (GeminiService.analyzeImageText rawJson))
  /\ Types.detectedTexts
       (App.handleFileUpload_analyzed (GeminiService.analyzeImageText rawJson) prev)
     = GeminiService.analyzeImageText rawJson
  /\ forall i t t',
       GeminiService.analyzeImageText rawJson !! i = Some t ->
       GeminiService.analyzeImageText later !! i = Some t' ->
       Types.id t' = Types.id t.
Proof.
  split; [apply analyzeImageText_ids|].
  split.
  { rewrite analyzeImageText_ids.
    apply (@NoDup_fmap_2 _ _ _ text_id_inj), NoDup_seq. }
  split; [reflexivity|].
  intros i t t' Ht Ht'.
  by rewrite (analyzeImageText_lookup_id _ _ _ Ht), (analyzeImageText_lookup_id _ _ _ Ht').
Qed.

(** ** The edit form of EditorOverlay.tsx *)

(** C9. Submitting the form with no region selected or with an empty draft
    calls nothing and leaves the component as it was, the editor still open;
    [onEditText] is called, once, only when a region is selected and the
    draft is not empty, and then with that region and that draft. *)
Theorem submit_guarded (s : EditorOverlay.State) :
  (EditorOverlay.editingId s = None \/ EditorOverlay.tempText s = "" ->
   EditorOverlay.handleSubmit s = (s, []))
  /\ (forall call,
        call ∈ snd (EditorOverlay.handleSubmit s) ->
        exists id,
          EditorOverlay.editingId s = Some id
          /\ EditorOverlay.tempText s <> ""
          /\ App.arg_id call = id
          /\ App.arg_newText call = EditorOverlay.tempText s
          /\ snd (EditorOverlay.handleSubmit s) = [call]
          /\ fst (EditorOverlay.handleSubmit s) = EditorOverlay.setEditingId None s).
Proof.
  unfold EditorOverlay.handleSubmit. split.
  - intros [Hnone|Hempty].
    + rewrite Hnone. reflexivity.
    + rewrite Hempty. simpl. by rewrite andb_false_r.
  - intros call.
    destruct (EditorOverlay.editingId s) as [id|] eqn:Hid; simpl;
      [|by intros ?%elem_of_nil].
    destruct (String.eqb_spec id ""); simpl; [by intros ?%elem_of_nil|].
    destruct (String.eqb_spec (EditorOverlay.tempText s) ""); simpl;
      [by intros ?%elem_of_nil|].
    intros ->%list_elem_of_singleton. by exists id.
Qed.

(** ** The viewport of EditorOverlay.tsx *)
Section ViewportFacts.
Import EditorOverlay Viewport.
Local Open Scope Q_scope.
Implicit Types (s : State) (p : Props) (e : Event) (evs : list (Props * Event)).










Lemma run_cons pe evs s : run (pe :: evs) s = run evs (step (fst pe) (snd pe) s).
Proof. reflexivity. Qed.









End ViewportFacts.

Section PanFacts.
Import EditorOverlay Viewport.
Local Open Scope Q_scope.
Implicit Types (s : State) (p : Props) (evs : list (Props * Event)).

Lemma keepsPan_step pe s :
  keepsPan pe ->
  startPan (step (fst pe) (snd pe) s) = startPan s
  /\ isPanning (step (fst pe) (snd pe) s) = isPanning s.
Proof.
  destruct pe as [p e]. unfold keepsPan. cbn [fst snd].
  destruct e; try done; cbn [step]; intros _.
  - unfold handleWheel.
    destruct (isProcessing p || isAnalyzing p); [done|].
    destruct (ctrlKey || metaKey); [|done]. by destruct (Qeq_bool _ 1).
  - unfold zoomOut. by destruct (Qeq_bool _ 1).
  - unfold handleMouseMove. by destruct (_ || _).
  - unfold handleBoxClick. by destruct (_ || _).
  - unfold handleSubmit. destruct (_ && _); [|done]. by destruct (editingId s).
Qed.

Lemma keepsPan_run evs s :
  Forall keepsPan evs ->
  startPan (run evs s) = startPan s /\ isPanning (run evs s) = isPanning s.
Proof.
  intros Hkeep. revert s. induction Hkeep as [|pe evs Hpe _ IH]; intros s; [done|].
  rewrite run_cons. destruct (IH (step (fst pe) (snd pe) s)) as [-> ->].
  by apply keepsPan_step.
Qed.

Lemma handleMouseDown_zoomed p clientX clientY s :
  isProcessing p = false -> isAnalyzing p = false -> 1 < scale s ->
  handleMouseDown p clientX clientY s
  = setStartPan {| x := clientX - x (offset s); y := clientY - y (offset s) |}
      (setIsPanning true s).
Proof.
  intros Hp Ha Hs. unfold handleMouseDown. rewrite Hp, Ha.
  destruct (Qle_bool (scale s) 1) eqn:Hle; [|done].
  apply Qle_bool_iff in Hle. lra.
Qed.

Lemma handleMouseMove_panning clientX clientY s :
  isPanning s = true -> 1 < scale s ->
  offset (handleMouseMove clientX clientY s)
  = {| x := clientX - x (startPan s); y := clientY - y (startPan s) |}.
Proof.
  intros Hpan Hs. unfold handleMouseMove. rewrite Hpan.
  destruct (Qle_bool (scale s) 1) eqn:Hle; [|done].
  apply Qle_bool_iff in Hle. lra.
Qed.

End PanFacts.

(** ** Claims on the viewport *)
Section ViewportClaims.
Import EditorOverlay Viewport.
Local Open Scope Q_scope.



(** C5. A pan gesture never moves the image while the scale is 1 (or
    below): mouse down, mouse move and mouse up all leave the offset as it
    is.  When the mouse goes down at [(x0, y0)] on a zoomed image and the
    gesture is still held with the image zoomed, a mouse move to [(x1, y1)]
    sets the offset to [(x1, y1) - (x0, y0)] plus the offset the gesture
    started from. *)
Theorem pan_only_when_zoomed
    (p : Props) (s : State) (x0 y0 x1 y1 : Q) (mid : list (Props * Event))
    (Hp : isProcessing p = false) (Ha : isAnalyzing p = false)
    (Hzoomed : 1 < scale s)
    (Hmid : Forall keepsPan mid)
    (Hstill : 1 < scale (run mid (handleMouseDown p x0 y0 s))) :
  (forall q r clientX clientY,
     scale r <= 1 ->
     offset (handleMouseDown q clientX clientY r) = offset r
     /\ offset (handleMouseMove clientX clientY r) = offset r
     /\ offset (handleMouseUp r) = offset r)
  /\ let held := run mid (handleMouseDown p x0 y0 s) in
     isPanning held = true
     /\ same_point (offset (handleMouseMove x1 y1 held))
          {| x := x1 - x0 + x (offset s); y := y1 - y0 + y (offset s) |}.
Proof.
  split.
  - intros q r clientX clientY Hr.
    apply Qle_bool_iff in Hr.
    unfold handleMouseDown, handleMouseMove. rewrite Hr, orb_true_r. simpl.
    done.
  - intros held.
    destruct (keepsPan_run mid (handleMouseDown p x0 y0 s) Hmid) as [Hstart Hpan].
    fold held in Hstart, Hpan.
    rewrite (handleMouseDown_zoomed p x0 y0 s Hp Ha Hzoomed) in Hstart, Hpan.
    simpl in Hstart, Hpan. split; [done|].
    rewrite handleMouseMove_panning by done.
    rewrite Hstart. unfold same_point. simpl. split; ring.
Qed.

(** A drag from (100, 100) to (140, 90) on a zoomed image, with one more
    click on the plus button while the mouse is held. *)
Lemma pan_only_when_zoomed_witness :
  same_point
    (offset (handleMouseMove 140 90
               (run [(idle, ZoomIn)] (handleMouseDown idle 100 100 Sample.zoomed))))
    {| x := 40; y := -10 |}.
Proof.
  assert (Hzoomed : 1 < scale Sample.zoomed) by reflexivity.
  assert (Hmid : Forall keepsPan [(idle, ZoomIn)])
    by (apply Forall_cons; split; [exact I|apply Forall_nil_2]).
  assert (Hstill : 1 < scale (run [(idle, ZoomIn)] (handleMouseDown idle 100 100 Sample.zoomed)))
    by reflexivity.
  pose proof (pan_only_when_zoomed idle Sample.zoomed 100 100 140 90 [(idle, ZoomIn)]
                eq_refl eq_refl Hzoomed Hmid Hstill) as [_ [_ [Hx Hy]]].
  split; [rewrite Hx|rewrite Hy]; reflexivity.
Defined.


End ViewportClaims.

(** * Further properties *)

(** ** Walking the image history *)
Section HistoryWalk.
Implicit Types (s : Types.AppState) (n : nat).

Lemma at_cursor_same s : at_cursor (Types.historyIndex s) s = s.
Proof. by destruct s. Qed.

Lemma handleUndo_at_cursor s :
  -1 <= Types.historyIndex s ->
  App.handleUndo s = at_cursor (Z.max (-1) (Types.historyIndex s - 1)) s.
Proof.
  intros Hlo. unfold App.handleUndo.
  destruct (0 <=? Types.historyIndex s) eqn:Hge.
  - unfold at_cursor. f_equal. lia.
  - replace (Z.max (-1) (Types.historyIndex s - 1)) with (Types.historyIndex s) by lia.
    by rewrite at_cursor_same.
Qed.

Lemma handleRedo_at_cursor s :
  Types.historyIndex s <= Z.of_nat (length (Types.history s)) - 1 ->
  App.handleRedo s
  = at_cursor (Z.min (Z.of_nat (length (Types.history s)) - 1)
                 (Types.historyIndex s + 1)) s.
Proof.
  intros Hhi. unfold App.handleRedo.
  destruct (_ <? _) eqn:Hlt.
  - unfold at_cursor. f_equal. lia.
  - replace (Z.min _ _) with (Types.historyIndex s) by lia.
    by rewrite at_cursor_same.
Qed.

Lemma undo_iter s n :
  -1 <= Types.historyIndex s ->
  Nat.iter n App.handleUndo s
  = at_cursor (Z.max (-1) (Types.historyIndex s - Z.of_nat n)) s.
Proof.
  intros Hlo. induction n as [|n IH].
  - simpl. replace (Z.max _ _) with (Types.historyIndex s) by lia.
    by rewrite at_cursor_same.
  - rewrite Nat.iter_succ, IH, handleUndo_at_cursor by (simpl; lia).
    unfold at_cursor. simpl. f_equal. lia.
Qed.

Lemma redo_iter s n :
  Types.historyIndex s <= Z.of_nat (length (Types.history s)) - 1 ->
  Nat.iter n App.handleRedo s
  = at_cursor (Z.min (Z.of_nat (length (Types.history s)) - 1)
                 (Types.historyIndex s + Z.of_nat n)) s.
Proof.
  intros Hhi. induction n as [|n IH].
  - simpl. replace (Z.min _ _) with (Types.historyIndex s) by lia.
    by rewrite at_cursor_same.
  - rewrite Nat.iter_succ, IH, handleRedo_at_cursor by (simpl; lia).
    unfold at_cursor. simpl. f_equal. lia.
Qed.

(** X1. Undo and redo are inverse to each other wherever they act: a redo
    after an undo that moved the cursor gives the state back, and so does
    an undo after a redo that moved it. *)
Theorem undo_redo_inverse s (Hs : cursor_ok s) :
  (0 <= Types.historyIndex s -> App.handleRedo (App.handleUndo s) = s)
  /\ (Types.historyIndex s < Z.of_nat (length (Types.history s)) - 1 ->
      App.handleUndo (App.handleRedo s) = s).
Proof.
  destruct Hs as [Hlo Hhi]. split; intros Hmove.
  - rewrite handleUndo_at_cursor, handleRedo_at_cursor by (simpl; lia).
    simpl. unfold at_cursor. simpl. destruct s; simpl in *. f_equal. lia.
  - rewrite handleRedo_at_cursor, handleUndo_at_cursor by (simpl; lia).
    simpl. unfold at_cursor. simpl. destruct s; simpl in *. f_equal. lia.
Qed.

(** Undo then redo on the photo with three edits. *)
Lemma undo_redo_inverse_witness :
  App.handleRedo (App.handleUndo Demo.thrice) = Demo.thrice.
Proof.
  assert (Hs : cursor_ok Demo.thrice) by (unfold cursor_ok; simpl; lia).
  destruct (undo_redo_inverse Demo.thrice Hs) as [Hredo _].
  apply Hredo. simpl. lia.
Defined.

(** X2. Undoing at least as many times as there are snapshots up to the
    cursor always ends on the baseline: the cursor is -1, the current image
    is the original image, and nothing but the cursor has changed, so every
    snapshot can still be redone. *)
Theorem undo_reaches_baseline s n
    (Hs : cursor_ok s) (Hn : Types.historyIndex s + 1 <= Z.of_nat n) :
  Nat.iter n App.handleUndo s = at_cursor (-1) s
  /\ App.currentImage (Nat.iter n App.handleUndo s) = Types.originalImage s
  /\ App.handleUndo (Nat.iter n App.handleUndo s) = Nat.iter n App.handleUndo s.
Proof.
  destruct Hs as [Hlo Hhi].
  assert (Hiter : Nat.iter n App.handleUndo s = at_cursor (-1) s).
  { rewrite undo_iter by lia. f_equal. lia. }
  rewrite Hiter. repeat split.
Qed.

(** Three undos on the photo with three edits. *)
Lemma undo_reaches_baseline_witness :
  App.currentImage (Nat.iter 3 App.handleUndo Demo.thrice)
  = Some "data:image/png;base64,AAAA".
Proof.
  assert (Hs : cursor_ok Demo.thrice) by (unfold cursor_ok; simpl; lia).
  assert (Hn : Types.historyIndex Demo.thrice + 1 <= Z.of_nat 3) by (simpl; lia).
  destruct (undo_reaches_baseline Demo.thrice 3 Hs Hn) as (_ & Hcur & _).
  rewrite Hcur. reflexivity.
Defined.

(** X3. From a state whose cursor is on the last snapshot, any number of
    undos followed by the same number of redos gives the state back. *)
Theorem undo_then_redo_restores s n
    (Htail : Types.historyIndex s = Z.of_nat (length (Types.history s)) - 1) :
  Nat.iter n App.handleRedo (Nat.iter n App.handleUndo s) = s.
Proof.
  rewrite undo_iter by lia.
  rewrite redo_iter by (simpl; lia).
  unfold at_cursor. simpl. destruct s; simpl in *. f_equal. lia.
Qed.

(** Five undos and five redos on the photo with three edits. *)
Lemma undo_then_redo_restores_witness :
  Nat.iter 5 App.handleRedo (Nat.iter 5 App.handleUndo Demo.thrice) = Demo.thrice.
Proof. apply (undo_then_redo_restores Demo.thrice 5). reflexivity. Defined.

End HistoryWalk.

(** ** Regions under edits *)
Section RegionFacts.
Implicit Types (s state : Types.AppState) (regions : list Types.DetectedText).

Lemma markEdited_ids id newText regions :
  ids (App.markEdited id newText regions) = ids regions.
Proof.
  unfold ids, App.markEdited. rewrite <- list_fmap_compose.
  apply list_fmap_ext. intros _ t _. simpl.
  by destruct (String.eqb (Types.id t) id).
Qed.

Lemma markEdited_boxes id newText regions :
  boxes_of (App.markEdited id newText regions) = boxes_of regions.
Proof.
  unfold boxes_of, App.markEdited. rewrite <- list_fmap_compose.
  apply list_fmap_ext. intros _ t _. simpl.
  by destruct (String.eqb (Types.id t) id).
Qed.

Lemma applyOp_ids op s :
  ids (Types.detectedTexts (App.applyOp op s)) = ids (Types.detectedTexts s).
Proof.
  destruct op; simpl.
  - apply markEdited_ids.
  - unfold App.handleUndo. by destruct (0 <=? _).
  - unfold App.handleRedo. by destruct (_ <? _).
Qed.

Lemma applyOp_boxes op s :
  boxes_of (Types.detectedTexts (App.applyOp op s)) = boxes_of (Types.detectedTexts s).
Proof.
  destruct op; simpl.
  - apply markEdited_boxes.
  - unfold App.handleUndo. by destruct (0 <=? _).
  - unfold App.handleRedo. by destruct (_ <? _).
Qed.

Lemma runOps_ids ops s :
  ids (Types.detectedTexts (App.runOps ops s)) = ids (Types.detectedTexts s).
Proof.
  induction ops as [|op ops IH] using rev_ind; [done|].
  by rewrite runOps_snoc, applyOp_ids.
Qed.

Lemma runOps_boxes ops s :
  boxes_of (Types.detectedTexts (App.runOps ops s)) = boxes_of (Types.detectedTexts s).
Proof.
  induction ops as [|op ops IH] using rev_ind; [done|].
  by rewrite runOps_snoc, applyOp_boxes.
Qed.

(** X4. Edits, undos and redos never add, remove, reorder or rename a region
    and never move its box: after any sequence of them the regions of a
    detection pass still carry the identifiers "text-0", "text-1", ... in
    order, pairwise distinct, and the boxes the pass reported. *)
Theorem edits_keep_regions
    (rawJson : list GeminiService.RawItem) (prev : Types.AppState)
    (ops : list App.HistoryOp) :
  let detected := App.handleFileUpload_analyzed
                    (GeminiService.analyzeImageText rawJson) prev in
  let regions := Types.detectedTexts (App.runOps ops detected) in
  ids regions = (fun index => "text-" +:+ pretty index) <$> seq 0 (length rawJson)
  /\ NoDup (ids regions)
  /\ length regions = length rawJson
  /\ boxes_of regions = boxes_of (GeminiService.analyzeImageText rawJson).
Proof.
  intros detected regions.
  assert (Hids : ids regions = ids (GeminiService.analyzeImageText rawJson))
    by apply runOps_ids.
  assert (Hboxes : boxes_of regions = boxes_of (GeminiService.analyzeImageText rawJson))
    by apply runOps_boxes.
  rewrite Hids, analyzeImageText_ids. repeat split.
  - apply (@NoDup_fmap_2 _ _ _ text_id_inj), NoDup_seq.
  - apply (f_equal length) in Hids. unfold ids in Hids.
    rewrite !length_fmap in Hids. rewrite Hids.
    unfold GeminiService.analyzeImageText. apply length_imap.
  - done.
Qed.

(** X5. Marking the same region twice keeps the text of the second edit,
    and marking two different regions gives the same set in either order. *)
Theorem markEdited_composes (i j a b : string) regions (Hij : i <> j) :
  App.markEdited i b (App.markEdited i a regions) = App.markEdited i b regions
  /\ App.markEdited i a (App.markEdited j b regions)
     = App.markEdited j b (App.markEdited i a regions).
Proof.
  unfold App.markEdited. rewrite <- !list_fmap_compose.
  split; apply list_fmap_ext; intros _ t _; simpl.
  - destruct (String.eqb_spec (Types.id t) i) as [Heq|Hne]; simpl.
    + by destruct (String.eqb_spec (Types.id t) i).
    + by destruct (String.eqb_spec (Types.id t) i).
  - destruct (String.eqb_spec (Types.id t) i) as [Hi|Hi];
      destruct (String.eqb_spec (Types.id t) j) as [Hj|Hj]; simpl.
    + congruence.
    + destruct (String.eqb_spec (Types.id t) i); [|done].
      by destruct (String.eqb_spec (Types.id t) j).
    + destruct (String.eqb_spec (Types.id t) j); [|done].
      by destruct (String.eqb_spec (Types.id t) i).
    + destruct (String.eqb_spec (Types.id t) i); [done|].
      by destruct (String.eqb_spec (Types.id t) j).
Qed.

(** Two edits of the detected region of the loaded photo. *)
Lemma markEdited_composes_witness :
  App.markEdited "text-0" "B" (App.markEdited "text-0" "A" (Types.detectedTexts Sample.loaded))
  = App.markEdited "text-0" "B" (Types.detectedTexts Sample.loaded).
Proof.
  assert (Hij : "text-0" <> "text-1") by discriminate.
  destruct (markEdited_composes "text-0" "text-1" "A" "B"
              (Types.detectedTexts Sample.loaded) Hij) as [Hlast _].
  exact Hlast.
Defined.

Lemma findTarget_markEdited state id newText target :
  App.findTarget state id = Some target ->
  List.find (fun t => String.eqb (Types.id t) id)
    (App.markEdited id newText (Types.detectedTexts state))
  = Some (edited newText target).
Proof.
  unfold App.findTarget, App.markEdited.
  induction (Types.detectedTexts state) as [|t l IH]; csimpl; [done|].
  destruct (String.eqb_spec (Types.id t) id) as [Heq|Hne]; simpl.
  - intros [= ->]. by destruct (String.eqb_spec (Types.id target) id).
  - destruct (String.eqb_spec (Types.id t) id); [done|]. apply IH.
Qed.

(** X6. An undo takes back the image of an edit but not the text of its
    region.  After an edit of a region is committed and then undone, the
    next edit of that region is sent with the image as it was before the
    first edit, while the text the model is asked to replace is the text
    the first edit had written. *)
Theorem edit_after_undo_request
    (state : Types.AppState) (target : Types.DetectedText)
    (first second : App.EditArgs) (snapshot : string)
    (Hcursor : cursor_ok state)
    (Hsame : App.arg_id second = App.arg_id first)
    (Htarget : App.handleEditText_target state (App.arg_id first) = Some target) :
  let undone :=
    App.handleUndo
      (App.push (App.arg_id first) (App.arg_newText first) snapshot
         (App.handleEditText_begin state)) in
  let before := App.handleEditText_request state target first in
  App.handleEditText_target undone (App.arg_id second)
    = Some (edited (App.arg_newText first) target)
  /\ let after := App.handleEditText_request undone
                    (edited (App.arg_newText first) target) second in
     App.req_base64Image after = App.req_base64Image before
     /\ App.req_originalText after = App.arg_newText first
     /\ App.req_originalText before = Types.text target.
Proof.
  intros undone before.
  destruct Hcursor as [Hlo Hhi].
  assert (Hundone : undone
    = at_cursor (Types.historyIndex state)
        (App.push (App.arg_id first) (App.arg_newText first) snapshot
           (App.handleEditText_begin state))).
  { unfold undone. rewrite handleUndo_at_cursor.
    - f_equal. simpl. rewrite length_app, slice0_take, length_take by lia. simpl. lia.
    - simpl. rewrite length_app. simpl. lia. }
  unfold App.handleEditText_target in Htarget.
  destruct (App.findTarget state (App.arg_id first)) as [found|] eqn:Hfind; [|done].
  destruct (JS.truthy (Types.originalImage state)) eqn:Horig; [|done].
  injection Htarget as ->.
  split.
  - rewrite Hundone, Hsame. unfold App.handleEditText_target, App.findTarget. simpl.
    rewrite (findTarget_markEdited _ _ _ _ Hfind). by rewrite Horig.
  - intros after. repeat split.
    unfold after, before, App.handleEditText_request. simpl.
    f_equal; rewrite Hundone; [|done]. unfold App.currentImage. simpl.
    destruct (0 <=? Types.historyIndex state) eqn:Hge; [|done].
    unfold JS.index. destruct (Types.historyIndex state <? 0) eqn:Hneg; [lia|].
    rewrite slice0_take by lia.
    rewrite lookup_app_l by (rewrite length_take; lia).
    apply lookup_take_lt. lia.
Qed.

(** An edit of the detected region, an undo, and a second edit. *)
Lemma edit_after_undo_request_witness :
  App.req_originalText
    (App.handleEditText_request
       (App.handleUndo (App.push "text-0" "CLOSED" "img" (App.handleEditText_begin Sample.loaded)))
       (edited "CLOSED" (GeminiService.toDetectedText 0 Sample.open_sign))
       Sample.args)
  = "CLOSED".
Proof.
  assert (Hcursor : cursor_ok Sample.loaded) by (unfold cursor_ok; simpl; lia).
  destruct (edit_after_undo_request Sample.loaded
              (GeminiService.toDetectedText 0 Sample.open_sign)
              Sample.args Sample.args "img" Hcursor eq_refl eq_refl)
    as (_ & _ & Htext & _).
  exact Htext.
Defined.

End RegionFacts.

(** ** The reply of the model and the data sent to it *)
Section ServiceFacts.
Implicit Types (parts : list GeminiService.Part) (d : string).

Lemma firstImage_skips before parts :
  Forall no_image before ->
  GeminiService.firstImage (before ++ parts) = GeminiService.firstImage parts.
Proof.
  induction 1 as [|part before Hpart _ IH]; [done|].
  simpl. unfold no_image in Hpart. by rewrite Hpart.
Qed.

(** X7. The image of a reply is the data of the first part that carries
    any, behind the prefix of a PNG data URL; parts without data before it,
    such as text, and every part after it are ignored.  The result is
    [null] exactly when no part carries data. *)
Theorem firstImage_first_wins
    (before after : list GeminiService.Part) (part : GeminiService.Part) d
    (Hbefore : Forall no_image before)
    (Hdata : GeminiService.inlineData_data part = Some d) (Hd : d <> "") :
  GeminiService.extractImage (Some (before ++ part :: after))
    = Some ("data:image/png;base64," +:+ d)
  /\ forall parts,
       GeminiService.extractImage (Some parts) = None <-> Forall no_image parts.
Proof.
  split.
  - simpl. rewrite firstImage_skips by done. simpl. rewrite Hdata. simpl.
    by destruct (String.eqb_spec d "").
  - intros parts. simpl. induction parts as [|p parts IH]; simpl.
    + split; [intros _; apply Forall_nil_2|done].
    + destruct (JS.truthy (GeminiService.inlineData_data p)) eqn:Hp.
      * split.
        -- destruct (GeminiService.inlineData_data p) as [data|]; [done|].
           simpl in Hp. discriminate.
        -- intros Hall. apply Forall_cons in Hall as [Hno _].
           unfold no_image in Hno. congruence.
      * rewrite IH. split; [intros Hall; by apply Forall_cons|].
        intros Hall. by apply Forall_cons in Hall as [_ Hall].
Qed.

(** A reply whose text part comes before its image part. *)
Lemma firstImage_first_wins_witness :
  GeminiService.extractImage (Some Demo.text_then_image)
  = Some "data:image/png;base64,BBBB".
Proof.
  assert (Hbefore : Forall no_image [ {| GeminiService.inlineData_data := None |} ])
    by (apply Forall_cons; split; [reflexivity|apply Forall_nil_2]).
  assert (Hd : "BBBB" <> "") by discriminate.
  destruct (firstImage_first_wins
              [ {| GeminiService.inlineData_data := None |} ] []
              {| GeminiService.inlineData_data := Some "BBBB" |} "BBBB"
              Hbefore eq_refl Hd) as [Himage _].
  exact Himage.
Defined.

Lemma split_comma_free s :
  comma_free s -> GeminiRequest.split GeminiRequest.comma s = [s].
Proof.
  induction s as [|c s IH]; simpl; [done|].
  intros [Hc Hs]. rewrite Hc, IH by done. reflexivity.
Qed.

Lemma split_at_comma header rest :
  comma_free header ->
  GeminiRequest.split GeminiRequest.comma
    (header +:+ String GeminiRequest.comma rest)
  = header :: GeminiRequest.split GeminiRequest.comma rest.
Proof.
  induction header as [|c header IH]; simpl.
  - intros _. reflexivity.
  - intros [Hc Hheader]. rewrite Hc. by rewrite IH.
Qed.

(** X8. The data sent to the model is what follows the first comma of the
    image string: for a data URL whose header and payload hold no comma it
    is the payload, whatever the header says, so the image an edit returned
    is sent back byte for byte by the next edit; a string without a comma
    gives [undefined]. *)
Theorem base64Data_roundtrip (header d : string)
    (Hheader : comma_free header) (Hd : comma_free d) :
  GeminiRequest.base64Data (header +:+ String GeminiRequest.comma d) = Some d
  /\ GeminiRequest.base64Data ("data:image/png;base64," +:+ d) = Some d
  /\ GeminiRequest.base64Data header = None.
Proof.
  unfold GeminiRequest.base64Data. split; [|split].
  - rewrite split_at_comma, split_comma_free by done. reflexivity.
  - change ("data:image/png;base64," +:+ d)
      with ("data:image/png;base64" +:+ String GeminiRequest.comma d).
    rewrite split_at_comma, split_comma_free; [reflexivity|done|].
    vm_compute. tauto.
  - rewrite split_comma_free by done. reflexivity.
Qed.

(** A JPEG upload, and a payload returned by an edit. *)
Lemma base64Data_roundtrip_witness :
  GeminiRequest.base64Data "data:image/jpeg;base64,AAAA" = Some "AAAA".
Proof.
  assert (Hheader : comma_free "data:image/jpeg;base64") by (vm_compute; tauto).
  assert (Hd : comma_free "AAAA") by (vm_compute; tauto).
  destruct (base64Data_roundtrip "data:image/jpeg;base64" "AAAA" Hheader Hd)
    as [Hdata _].
  exact Hdata.
Defined.

End ServiceFacts.

(** ** Failures and the error banner *)
Section BannerFacts.
Implicit Types (state : Types.AppState) (err : GeminiService.ApiError).

Lemma or_default_truthy (s d : string) :
  d <> "" -> JS.truthy (Some (JS.or_default s d)) = true.
Proof.
  intros Hd. unfold JS.or_default, JS.truthy.
  destruct (String.eqb_spec s ""); [by destruct (String.eqb_spec d "")|].
  by destruct (String.eqb_spec s "").
Qed.

Lemma banner_of_error state error :
  Types.error (Types.processing state) = Some error -> error <> "" ->
  AppShell.banner state
  = Some (if AppShell.isQuotaError error then "Rate Limit Reached" else "Service Issue",
          AppShell.isQuotaError error).
Proof.
  intros Herr Hne. unfold AppShell.banner. rewrite Herr. simpl.
  by destruct (String.eqb_spec error "").
Qed.

Lemma handleGeminiError_quota err :
  GeminiService.status err = Some 429
  \/ JS.includes (GeminiService.message err) "quota" = true
  \/ JS.includes (GeminiService.message err) "RESOURCE_EXHAUSTED" = true ->
  GeminiService.message (GeminiService.handleGeminiError err) = quotaMessage.
Proof.
  intros Hquota. unfold GeminiService.handleGeminiError.
  assert (Hcond : bool_decide (GeminiService.status err = Some 429)
                  || JS.includes (GeminiService.message err) "quota"
                  || JS.includes (GeminiService.message err) "RESOURCE_EXHAUSTED" = true).
  { destruct Hquota as [Hs|[Hm|Hm]].
    - by rewrite (bool_decide_eq_true_2 _ Hs).
    - rewrite Hm. by rewrite orb_true_r.
    - rewrite Hm. by rewrite orb_true_r. }
  by rewrite Hcond.
Qed.

(** X9. An error of the service with status 429, or whose message mentions
    "quota" or "RESOURCE_EXHAUSTED", reaches the user as the rate-limit
    banner with its retry button, after a failed edit as after a failed
    detection, whatever else the error says. *)
Theorem quota_error_banner err state (id newText : string)
    (Hquota : GeminiService.status err = Some 429
              \/ JS.includes (GeminiService.message err) "quota" = true
              \/ JS.includes (GeminiService.message err) "RESOURCE_EXHAUSTED" = true) :
  AppShell.banner
    (App.handleEditText_settle id newText
       (GeminiService.editImageText (GeminiService.Failed err)) state)
  = Some ("Rate Limit Reached", true)
  /\ AppShell.banner
       (App.handleFileUpload_failed (GeminiService.handleGeminiError err) state)
     = Some ("Rate Limit Reached", true).
Proof.
  pose proof (handleGeminiError_quota err Hquota) as Hmsg.
  split.
  - rewrite (banner_of_error _ quotaMessage); [reflexivity| |discriminate].
    cbn -[GeminiService.handleGeminiError JS.or_default].
    by rewrite Hmsg.
  - rewrite (banner_of_error _ quotaMessage); [reflexivity| |discriminate].
    cbn -[GeminiService.handleGeminiError JS.or_default].
    by rewrite Hmsg.
Qed.

(** A reply with status 429 to an edit of the loaded photo. *)
Lemma quota_error_banner_witness :
  AppShell.banner
    (App.handleEditText_settle "text-0" "CLOSED"
       (GeminiService.editImageText (GeminiService.Failed Demo.quota_error))
       Sample.loaded)
  = Some ("Rate Limit Reached", true).
Proof.
  destruct (quota_error_banner Demo.quota_error Sample.loaded "text-0" "CLOSED"
              (or_introl eq_refl)) as [Hedit _].
  exact Hedit.
Defined.

(** X10. No failure is silent and none leaves the interface blocked: when an
    edit does not resolve to an image, or a detection is rejected, a banner
    is drawn with a message that is not empty (the fallback text when the
    error has none), the busy flag of the operation is cleared, and the
    history, the cursor and the regions are as they were. *)
Theorem failure_shows_banner
    (reply : GeminiService.Reply) err state (id newText : string)
    (Hfail : forall r, GeminiService.editImageText reply
                       <> GeminiService.Resolved (Some r)) :
  let afterEdit :=
    App.handleEditText_settle id newText (GeminiService.editImageText reply) state in
  let afterUpload :=
    App.handleFileUpload_failed (GeminiService.handleGeminiError err) state in
  (is_Some (AppShell.banner afterEdit)
   /\ Types.isEditing (Types.processing afterEdit) = false
   /\ Types.history afterEdit = Types.history state
   /\ Types.historyIndex afterEdit = Types.historyIndex state
   /\ Types.detectedTexts afterEdit = Types.detectedTexts state)
  /\ (is_Some (AppShell.banner afterUpload)
      /\ Types.isAnalyzing (Types.processing afterUpload) = false
      /\ Types.history afterUpload = Types.history state
      /\ Types.historyIndex afterUpload = Types.historyIndex state
      /\ Types.detectedTexts afterUpload = Types.detectedTexts state).
Proof.
  intros afterEdit afterUpload. split.
  - unfold afterEdit.
    destruct (GeminiService.editImageText reply) as [[r|]|e] eqn:Hout.
    + by destruct (Hfail r).
    + repeat split. by eexists.
    + repeat split. unfold AppShell.banner.
      cbn -[JS.or_default JS.truthy GeminiService.handleGeminiError].
      rewrite or_default_truthy by discriminate. by eexists.
  - repeat split. unfold afterUpload, AppShell.banner.
    cbn -[JS.or_default JS.truthy GeminiService.handleGeminiError].
    rewrite or_default_truthy by discriminate. by eexists.
Qed.

(** A reply without parts to an edit of the loaded photo. *)
Lemma failure_shows_banner_witness :
  is_Some (AppShell.banner
             (App.handleEditText_settle "text-0" "CLOSED"
                (GeminiService.editImageText (GeminiService.Answered None))
                Sample.loaded)).
Proof.
  assert (Hfail : forall r, GeminiService.editImageText (GeminiService.Answered None)
                            <> GeminiService.Resolved (Some r)) by (intros r; discriminate).
  destruct (failure_shows_banner (GeminiService.Answered None) Demo.quota_error
              Sample.loaded "text-0" "CLOSED" Hfail) as [[Hbanner _] _].
  exact Hbanner.
Defined.

End BannerFacts.

(** ** The simulated progress of a detection pass *)
Section ProgressFacts.
Local Open Scope Q_scope.

Lemma tick_cases (prev : Q) :
  (prev < 40 /\ Progress.tick prev = prev + 3)
  \/ (40 <= prev < 80 /\ Progress.tick prev = prev + 0.8)
  \/ (80 <= prev < 98 /\ Progress.tick prev = prev + 0.2)
  \/ (98 <= prev /\ Progress.tick prev = prev).
Proof.
  unfold Progress.tick.
  destruct (Qle_bool 40 prev) eqn:H40; simpl.
  - apply Qle_bool_iff in H40.
    destruct (Qle_bool 80 prev) eqn:H80; simpl.
    + apply Qle_bool_iff in H80.
      destruct (Qle_bool 98 prev) eqn:H98; simpl.
      * apply Qle_bool_iff in H98. right. right. right. by split.
      * right. right. left. split; [|done]. split; [done|].
        apply Qnot_le_lt. intros Hle. apply Qle_bool_iff in Hle. congruence.
    + right. left. split; [|done]. split; [done|].
      apply Qnot_le_lt. intros Hle. apply Qle_bool_iff in Hle. congruence.
  - left. split; [|done].
    apply Qnot_le_lt. intros Hle. apply Qle_bool_iff in Hle. congruence.
Qed.

Lemma after_succ n : Progress.after (S n) = Progress.tick (Progress.after n).
Proof. reflexivity. Qed.

Lemma after_range n : 0 <= Progress.after n < 98.2.
Proof.
  induction n as [|n IH]; [change (Progress.after 0) with 0; lra|].
  rewrite after_succ.
  destruct (tick_cases (Progress.after n)) as [[? ->]|[[? ->]|[[? ->]|[? ->]]]]; lra.
Qed.

Lemma after_stops k : Progress.after (150 + k) = Progress.after 150.
Proof.
  induction k as [|k IH]; [by rewrite Nat.add_0_r|].
  rewrite Nat.add_succ_r, after_succ, IH.
  by vm_compute.
Qed.

(** X11. While a detection pass runs the simulated progress starts at 0,
    never decreases and stays below 98.2, so the percentage on screen never
    passes 98 and never shows 100; after 150 ticks (7.5 seconds) it stands
    still at 98 until the pass ends. *)
Theorem progress_never_completes (n : nat) :
  Progress.after 0 = 0
  /\ Progress.after n <= Progress.after (S n)
  /\ 0 <= Progress.after n < 98.2
  /\ (0 <= Progress.shown (Progress.after n) <= 98)%Z
  /\ ((150 <= n)%nat ->
      Progress.after n = Progress.after 150
      /\ Progress.shown (Progress.after n) = 98%Z).
Proof.
  pose proof (after_range n) as [Hlo Hhi].
  split; [reflexivity|]. split.
  { rewrite after_succ.
    destruct (tick_cases (Progress.after n)) as [[? ->]|[[? ->]|[[? ->]|[? ->]]]]; lra. }
  split; [done|]. split.
  - unfold Progress.shown. split.
    + change 0%Z with (Qfloor 0). by apply Qfloor_resp_le.
    + apply Z.lt_succ_r. rewrite Zlt_Qlt.
      apply Qle_lt_trans with (Progress.after n); [apply Qfloor_le|].
      change (inject_Z (Z.succ 98)) with 99. lra.
  - intros Hn. replace n with (150 + (n - 150))%nat by lia.
    rewrite after_stops. split; [done|]. by vm_compute.
Qed.

End ProgressFacts.

(** ** The edit form and the viewport together *)
Section OverlayFacts.
Import EditorOverlay Viewport.
Local Open Scope Q_scope.
Implicit Types (s : State) (p : Props) (evs : list (Props * Event)).

(** X12. A region that is clicked and applied without touching the form is
    submitted with its own text and with every style left to the model:
    the font and the colour are "original", there is no stroke and the size
    is 100, whatever font, colour or stroke an earlier session had chosen;
    the request then says "Match font.", "Match color." and nothing about
    a stroke.  The editor is closed by the submission. *)
Theorem untouched_form_matches_original
    p (textObj target : Types.DetectedText) s (str : Q -> string)
    (state : Types.AppState)
    (Hp : isProcessing p = false) (Ha : isAnalyzing p = false)
    (Hpan : isPanning s = false)
    (Hid : Types.id textObj <> "") (Htext : Types.text textObj <> "") :
  let opened := handleBoxClick p textObj s in
  let req := App.handleEditText_request state target (matchOriginal textObj) in
  handleSubmit opened = (setEditingId None opened, [matchOriginal textObj])
  /\ editingId (fst (handleSubmit opened)) = None
  /\ GeminiRequest.fontInstruction (App.req_font req) = "Match font."
  /\ GeminiRequest.colorInstruction (App.req_color req) = "Match color."
  /\ GeminiRequest.strokeInstruction str (App.req_strokeColor req)
       (App.req_strokeWidth req) = "".
Proof.
  intros opened req.
  assert (Hsubmit : handleSubmit opened
                    = (setEditingId None opened, [matchOriginal textObj])).
  { unfold opened, handleBoxClick. rewrite Hp, Ha, Hpan. simpl.
    unfold handleSubmit. simpl.
    destruct (String.eqb_spec (Types.id textObj) ""); [done|].
    destruct (String.eqb_spec (Types.text textObj) ""); [done|].
    reflexivity. }
  rewrite Hsubmit. repeat split.
Qed.

(** The detected region is clicked on a form that an earlier session left
    with a font, a colour and a stroke. *)
Lemma untouched_form_matches_original_witness :
  snd (handleSubmit
         (handleBoxClick idle (GeminiService.toDetectedText 0 Sample.open_sign) Demo.styled))
  = [matchOriginal (GeminiService.toDetectedText 0 Sample.open_sign)].
Proof.
  destruct (untouched_form_matches_original idle
              (GeminiService.toDetectedText 0 Sample.open_sign)
              (GeminiService.toDetectedText 0 Sample.open_sign)
              Demo.styled (fun _ => "") Sample.loaded
              eq_refl eq_refl eq_refl) as [Hsubmit _].
  - vm_compute. discriminate.
  - vm_compute. discriminate.
  - rewrite Hsubmit. reflexivity.
Defined.

Lemma isMove_after_release pe s :
  isMove pe -> isPanning s = false -> step (fst pe) (snd pe) s = s.
Proof.
  destruct pe as [p e]. unfold isMove. cbn [fst snd].
  destruct e; try done. intros _ Hpan. cbn [step].
  unfold handleMouseMove. by rewrite Hpan.
Qed.

(** X13. Releasing the mouse ends the pan: the movements of the mouse that
    follow leave the offset, and the whole component, as the release left
    them. *)
Theorem release_ends_pan s evs (Hmoves : Forall isMove evs) :
  run evs (handleMouseUp s) = handleMouseUp s
  /\ offset (run evs (handleMouseUp s)) = offset s.
Proof.
  assert (Hrun : forall r, isPanning r = false -> run evs r = r).
  { induction Hmoves as [|pe evs Hpe _ IH]; intros r Hr; [done|].
    rewrite run_cons, isMove_after_release by done. by apply IH. }
  rewrite Hrun by done. done.
Qed.

(** A drag on a zoomed image, a release, and two more movements. *)
Lemma release_ends_pan_witness :
  offset (run [(idle, MouseMove 300 300); (idle, MouseMove 10 10)]
            (handleMouseUp
               (handleMouseMove 140 90 (handleMouseDown idle 100 100 Sample.zoomed))))
  = offset (handleMouseMove 140 90 (handleMouseDown idle 100 100 Sample.zoomed)).
Proof.
  apply (release_ends_pan
           (handleMouseMove 140 90 (handleMouseDown idle 100 100 Sample.zoomed))
           [(idle, MouseMove 300 300); (idle, MouseMove 10 10)]).
  repeat (apply Forall_cons; split; [exact I|]). apply Forall_nil_2.
Defined.

(** X14. During a pan the offset follows the pointer, not the path it took:
    a movement sets the offset the same whether or not other movements came
    before it, and a movement back to the point where the mouse went down
    puts the image back where the pan started. *)
Theorem pan_follows_pointer p s (x0 y0 x1 y1 x2 y2 : Q)
    (Hp : isProcessing p = false) (Ha : isAnalyzing p = false)
    (Hzoomed : 1 < scale s) :
  let held := handleMouseDown p x0 y0 s in
  offset (handleMouseMove x2 y2 (handleMouseMove x1 y1 held))
    = offset (handleMouseMove x2 y2 held)
  /\ same_point (offset (handleMouseMove x0 y0 (handleMouseMove x1 y1 held))) (offset s).
Proof.
  intros held. unfold held.
  rewrite (handleMouseDown_zoomed p x0 y0 s Hp Ha Hzoomed).
  set (down := setStartPan _ _).
  assert (Hpan : isPanning down = true) by reflexivity.
  assert (Hscale : 1 < scale down) by exact Hzoomed.
  assert (Hmoved : forall x y,
             isPanning (handleMouseMove x y down) = true
             /\ 1 < scale (handleMouseMove x y down)
             /\ startPan (handleMouseMove x y down) = startPan down).
  { intros x y. unfold handleMouseMove. rewrite Hpan.
    destruct (Qle_bool (scale down) 1) eqn:Hle; [|done].
    apply Qle_bool_iff in Hle. lra. }
  destruct (Hmoved x1 y1) as (Hpan1 & Hscale1 & Hstart1).
  rewrite !handleMouseMove_panning by done. rewrite Hstart1.
  split; [done|]. unfold same_point. simpl. split; ring.
Qed.

(** A drag to (140, 90) and back to (100, 100) on a zoomed image. *)
Lemma pan_follows_pointer_witness :
  same_point
    (offset (handleMouseMove 100 100
               (handleMouseMove 140 90 (handleMouseDown idle 100 100 Sample.zoomed))))
    (offset Sample.zoomed).
Proof.
  assert (Hzoomed : 1 < scale Sample.zoomed) by reflexivity.
  destruct (pan_follows_pointer idle Sample.zoomed 100 100 140 90 0 0
              eq_refl eq_refl Hzoomed) as [_ Hback].
  exact Hback.
Defined.

Lemma step_frame p e s :
  (onViewport e -> draft (step p e s) = draft s)
  /\ (~ onViewport e -> viewport (step p e s) = viewport s).
Proof.
  split.
  - destruct e; try done; intros _; cbn [step].
    + unfold handleWheel.
      destruct (isProcessing p || isAnalyzing p); [done|].
      destruct (ctrlKey || metaKey); [|done]. by destruct (Qeq_bool _ 1).
    + unfold zoomOut. by destruct (Qeq_bool _ 1).
    + unfold handleMouseDown. by destruct (_ || _).
    + unfold handleMouseMove. by destruct (_ || _).
  - destruct e; simpl; try tauto; intros _.
    + unfold handleBoxClick. by destruct (_ || _).
    + unfold handleSubmit. destruct (_ && _); [|done]. by destruct (editingId s).
Qed.

(** X15. The viewport and the edit form do not touch each other: wheel,
    zoom buttons and mouse gestures leave the selected region and every
    field of the form as they are, and clicking a region, typing, choosing
    styles, applying and cancelling leave the scale, the offset and the pan
    state as they are. *)
Theorem viewport_and_form_are_separate s (views edits : list (Props * Event))
    (Hviews : Forall (fun pe => onViewport (snd pe)) views)
    (Hedits : Forall (fun pe => ~ onViewport (snd pe)) edits) :
  draft (run views s) = draft s /\ viewport (run edits s) = viewport s.
Proof.
  split.
  - revert s. induction Hviews as [|pe evs Hpe _ IH]; intros s; [done|].
    rewrite run_cons, IH. by apply step_frame.
  - revert s. induction Hedits as [|pe evs Hpe _ IH]; intros s; [done|].
    rewrite run_cons, IH. by apply step_frame.
Qed.

(** Zooming and dragging, and typing and applying, on a filled form. *)
Lemma viewport_and_form_are_separate_witness :
  draft (run [(idle, ZoomIn); (idle, MouseDown 5 5); (idle, MouseMove 9 9)] Demo.styled)
  = draft Demo.styled
  /\ viewport (run [(idle, ChangeText "x"); (idle, Submit)] Demo.styled)
     = viewport Demo.styled.
Proof.
  apply (viewport_and_form_are_separate _
           [(idle, ZoomIn); (idle, MouseDown 5 5); (idle, MouseMove 9 9)]
           [(idle, ChangeText "x"); (idle, Submit)]).
  - repeat (apply Forall_cons; split; [exact I|]). apply Forall_nil_2.
  - repeat (apply Forall_cons; split; [intros H; exact H|]). apply Forall_nil_2.
Defined.

End OverlayFacts.

(** ** The whole of App.tsx *)
Section AppFacts.
Implicit Types (s state : Types.AppState) (evs : list AppShell.Event).

Lemma push_snapshots_ok id newText r s :
  r <> "" -> snapshots_ok s -> snapshots_ok (App.push id newText r s).
Proof.
  intros Hr Hs. unfold snapshots_ok. simpl. apply Forall_app. split.
  - unfold JS.slice0. by apply Forall_take.
  - apply Forall_cons. split; [done|apply Forall_nil_2].
Qed.

Lemma step_history_ok e s :
  cursor_ok s /\ snapshots_ok s ->
  cursor_ok (AppShell.step e s) /\ snapshots_ok (AppShell.step e s).
Proof.
  intros [Hc Hs]. destruct e; simpl; try done.
  - split; [unfold cursor_ok; simpl; lia|apply Forall_nil_2].
  - by destruct (App.handleEditText_target s (App.arg_id a)).
  - destruct outcome as [[r|]|err]; simpl; try done.
    destruct (String.eqb_spec r ""); simpl; [done|].
    split; [apply push_cursor_ok|by apply push_snapshots_ok].
  - split; [by apply handleUndo_cursor_ok|].
    unfold snapshots_ok, App.handleUndo. by destruct (0 <=? _).
  - split; [by apply handleRedo_cursor_ok|].
    unfold snapshots_ok, App.handleRedo. by destruct (_ <? _).
  - split; [unfold cursor_ok; simpl; lia|apply Forall_nil_2].
Qed.

Lemma run_history_ok evs s :
  cursor_ok s /\ snapshots_ok s ->
  cursor_ok (AppShell.run evs s) /\ snapshots_ok (AppShell.run evs s).
Proof.
  revert s. induction evs as [|e evs IH]; intros s Hs; [done|].
  apply IH. by apply step_history_ok.
Qed.

(** X16. Whatever the user does and however the service answers, in any
    order, the cursor stays within the history and no stored snapshot is
    an empty string; so with the cursor on a snapshot the image on screen,
    which is also the image the next edit is made from, is that snapshot,
    and the fallback to the original image is taken only at cursor -1. *)
Theorem app_history_invariant evs :
  let s := AppShell.run evs App.initialState in
  cursor_ok s
  /\ snapshots_ok s
  /\ (0 <= Types.historyIndex s ->
      exists snapshot,
        Types.history s !! Z.to_nat (Types.historyIndex s) = Some snapshot
        /\ snapshot <> ""
        /\ AppShell.imageSrc s = Some snapshot)
  /\ (Types.historyIndex s = -1 -> AppShell.imageSrc s = Types.originalImage s).
Proof.
  intros s.
  destruct (run_history_ok evs App.initialState) as [Hc Hs].
  { split; [unfold cursor_ok; simpl; lia|apply Forall_nil_2]. }
  fold s in Hc, Hs. split; [done|]. split; [done|].
  destruct (currentImage_cursor s Hc) as [Hon Hbase]. split.
  - intros Hge. destruct (Hon Hge) as (snapshot & Hlook & Hcur).
    assert (Hne : snapshot <> "").
    { unfold snapshots_ok in Hs. rewrite Forall_lookup in Hs. by eapply Hs. }
    exists snapshot. repeat split; [done..|].
    unfold AppShell.imageSrc, JS.or. rewrite Hcur. simpl.
    by destruct (String.eqb_spec snapshot "").
  - intros Hm. unfold AppShell.imageSrc, JS.or. rewrite (Hbase Hm).
    by destruct (JS.truthy _).
Qed.

(** X17. Replies are applied to the state that is current when they arrive,
    not to the one they were requested for.  If a photo is uploaded, the
    project is reset and a second photo is uploaded before the first
    detection answers, that answer becomes the detection set of the second
    photo and clears the analysing flag although the second detection is
    still running; and an edit that resolves after a reset is stored as the
    only snapshot of a project that has no original image. *)
Theorem replies_are_not_tied_to_requests
    s (a b : string) (resultsA : list Types.DetectedText)
    (id newText r : string) (Hr : r <> "") :
  let crossed :=
    AppShell.run [AppShell.FileLoaded a; AppShell.ResetClicked;
                  AppShell.FileLoaded b; AppShell.AnalysisResolved resultsA] s in
  let late :=
    AppShell.run [AppShell.ResetClicked;
                  AppShell.EditSettled id newText (GeminiService.Resolved (Some r))] s in
  (Types.originalImage crossed = Some b
   /\ Types.detectedTexts crossed = resultsA
   /\ Types.isAnalyzing (Types.processing crossed) = false)
  /\ (Types.originalImage late = None
      /\ Types.history late = [r]
      /\ Types.historyIndex late = 0
      /\ AppShell.imageSrc late = Some r).
Proof.
  intros crossed late. split; [done|].
  unfold late. simpl. destruct (String.eqb_spec r ""); [done|]. simpl.
  repeat split. unfold AppShell.imageSrc, App.currentImage, JS.or. simpl.
  by destruct (String.eqb_spec r "").
Qed.

(** Two uploads whose detections cross, and an edit that resolves late. *)
Lemma replies_are_not_tied_to_requests_witness :
  Types.detectedTexts
    (AppShell.run [AppShell.FileLoaded "a"; AppShell.ResetClicked;
                   AppShell.FileLoaded "b";
                   AppShell.AnalysisResolved (Types.detectedTexts Sample.loaded)]
       App.initialState)
  = Types.detectedTexts Sample.loaded.
Proof.
  assert (Hr : "img" <> "") by discriminate.
  destruct (replies_are_not_tied_to_requests App.initialState "a" "b"
              (Types.detectedTexts Sample.loaded) "text-0" "CLOSED" "img" Hr)
    as [(_ & Hregions & _) _].
  exact Hregions.
Defined.

(** X18. Nothing can be edited before a detection has answered: while the
    detection of an uploaded photo is running, and after it has failed, the
    detection set is empty, so [handleEditText] returns at its guard for
    every identifier without calling the model; and while the detection
    runs the overlay draws no box that could be clicked. *)
Theorem no_edit_before_detection
    (ai : App.EditRequest -> GeminiService.Reply) (a : App.EditArgs)
    (base64 : string) (prev : Types.AppState) (err : GeminiService.ApiError)
    (regions : list Types.DetectedText) (view : EditorOverlay.State) :
  let loading := App.handleFileUpload_loaded base64 prev in
  let failed := App.handleFileUpload_failed err loading in
  App.handleEditText ai a loading = (loading, [])
  /\ App.handleEditText ai a failed = (failed, [])
  /\ EditorOverlay.boxes (EditorOverlay.render (propsOf loading) regions view) = [].
Proof. intros loading failed. repeat split. Qed.

End AppFacts.

(** ** One edit at a time *)
Section BusyFacts.
Import EditorOverlay.
Implicit Types (s : State) (evs : list (Props * Event)).

Lemma busy_step pe s :
  busy pe -> editingId s = None ->
  editingId (step (fst pe) (snd pe) s) = None
  /\ match snd pe with Submit => snd (handleSubmit s) | _ => [] end = [].
Proof.
  destruct pe as [p e]. unfold busy. cbn [fst snd]. intros Hbusy Hclosed.
  destruct e; cbn [step]; try done.
  - split; [|done]. unfold handleWheel.
    destruct (isProcessing p || isAnalyzing p); [done|].
    destruct (ctrlKey || metaKey); [|done]. by destruct (Qeq_bool _ 1).
  - split; [|done]. unfold zoomOut. by destruct (Qeq_bool _ 1).
  - split; [|done]. unfold handleMouseDown. by destruct (_ || _).
  - split; [|done]. unfold handleMouseMove. by destruct (_ || _).
  - split; [|done]. unfold handleBoxClick.
    destruct Hbusy as [-> | ->]; simpl; [done|]. by rewrite orb_true_r.
  - unfold handleSubmit. by rewrite Hclosed.
Qed.

(** X19. While an edit or a detection is running no edit can be submitted
    from a closed editor: a click on a region does not open it, so whatever
    the user does, the editor stays closed and [onEditText] is not called.
    The editor is closed by every submission that calls [onEditText], and
    [App] reports the edit as running from the first state update of
    [handleEditText] on. *)
Theorem one_edit_at_a_time s evs
    (state : Types.AppState)
    (Hbusy : Forall busy evs) (Hclosed : editingId s = None) :
  submitted evs s = []
  /\ editingId (run evs s) = None
  /\ isProcessing (propsOf (App.handleEditText_begin state)) = true
  /\ forall open, snd (handleSubmit open) <> [] ->
                  editingId (fst (handleSubmit open)) = None.
Proof.
  split; [|split; [|split; [done|]]].
  - revert s Hclosed. induction Hbusy as [|pe evs Hpe _ IH]; intros s Hclosed; [done|].
    destruct (busy_step pe s Hpe Hclosed) as [Hstill Hnone].
    simpl. rewrite Hnone. simpl. by apply IH.
  - revert s Hclosed. induction Hbusy as [|pe evs Hpe _ IH]; intros s Hclosed; [done|].
    destruct (busy_step pe s Hpe Hclosed) as [Hstill Hnone].
    rewrite run_cons. by apply IH.
  - intros open. unfold handleSubmit.
    destruct (_ && _); [|done]. by destruct (editingId open).
Qed.

(** Clicks and submissions while the first edit of the loaded photo runs. *)
Lemma one_edit_at_a_time_witness :
  submitted
    [(propsOf (App.handleEditText_begin Sample.loaded),
      BoxClick (GeminiService.toDetectedText 0 Sample.open_sign));
     (propsOf (App.handleEditText_begin Sample.loaded), ChangeText "AGAIN");
     (propsOf (App.handleEditText_begin Sample.loaded), Submit)]
    initialState
  = [].
Proof.
  apply (one_edit_at_a_time initialState _ Sample.loaded); [|reflexivity].
  repeat (apply Forall_cons; split; [left; reflexivity|]). apply Forall_nil_2.
Defined.

End BusyFacts.

(** ** The download *)
Section DownloadFacts.
Local Open Scope Q_scope.
Implicit Types (state : Types.AppState) (trim : string -> string).

(** X20. A download is never nameless and never empty: the file is named
    after the trimmed filename, or "export" when that is empty, followed by
    ".png"; it is made from the current image, at every resolution; and
    when there is no current image nothing is downloaded. *)
Theorem download_is_named
    trim (downloadRes : AppShell.Resolution) (customFilename : string)
    (imgWidth imgHeight : Q) (hasContext : bool) state :
  (exists stem,
     AppShell.finalName trim customFilename = stem +:+ ".png"
     /\ stem <> ""
     /\ (trim customFilename <> "" -> stem = trim customFilename)
     /\ (trim customFilename = "" -> stem = "export"))
  /\ (forall d,
        AppShell.handleDownload trim downloadRes customFilename
          imgWidth imgHeight hasContext state = Some d ->
        AppShell.download d = AppShell.finalName trim customFilename
        /\ App.currentImage state = Some (source (AppShell.href d))
        /\ source (AppShell.href d) <> "")
  /\ (JS.truthy (App.currentImage state) = false ->
      AppShell.handleDownload trim downloadRes customFilename
        imgWidth imgHeight hasContext state = None).
Proof.
  split; [|split].
  - exists (JS.or_default (trim customFilename) "export").
    split; [done|]. unfold JS.or_default.
    destruct (String.eqb_spec (trim customFilename) ""); repeat split; try done.
  - intros d. unfold AppShell.handleDownload.
    destruct (App.currentImage state) as [img|] eqn:Hcur; simpl; [|done].
    destruct (String.eqb_spec img ""); simpl; [done|].
    destruct downloadRes; [|destruct hasContext..]; intros [= <-]; done.
  - intros Hnone. unfold AppShell.handleDownload. by rewrite Hnone.
Qed.



End DownloadFacts.

(** ** Errors that are not rate limits *)
Section ClassificationFacts.
Implicit Types (state : Types.AppState) (err : GeminiService.ApiError).

Lemma handleGeminiError_not_quota err :
  not_quota err ->
  GeminiService.handleGeminiError err
  = if bool_decide (GeminiService.status err = Some 403)
       || JS.includes (GeminiService.message err) "leaked"
       || JS.includes (GeminiService.message err) "PERMISSION_DENIED"
    then {| GeminiService.status := None; GeminiService.message := keyMessage |}
    else if JS.includes (GeminiService.message err) "safety"
         then {| GeminiService.status := None; GeminiService.message := safetyMessage |}
         else err.
Proof.
  intros (Hs & Hq & Hr). unfold GeminiService.handleGeminiError.
  by rewrite (bool_decide_eq_false_2 _ Hs), Hq, Hr.
Qed.

(** X22. The marks are tried in a fixed order: rate limit, then key, then
    safety.  An error that is no rate limit but has status 403 or mentions
    "leaked" or "PERMISSION_DENIED" is reported as a key error even when
    its message also mentions "safety"; one that only mentions "safety" is
    reported as a safety block; and one with none of the marks is rethrown
    as it is.  The first two reach the user under the title "Service
    Issue", without a retry button. *)
Theorem error_classes_in_order err state (id newText : string)
    (Hquota : not_quota err) :
  (key_marked err ->
   GeminiService.message (GeminiService.handleGeminiError err) = keyMessage
   /\ AppShell.banner
        (App.handleEditText_settle id newText
           (GeminiService.editImageText (GeminiService.Failed err)) state)
      = Some ("Service Issue", false))
  /\ (~ key_marked err ->
      JS.includes (GeminiService.message err) "safety" = true ->
      GeminiService.message (GeminiService.handleGeminiError err) = safetyMessage
      /\ AppShell.banner
           (App.handleEditText_settle id newText
              (GeminiService.editImageText (GeminiService.Failed err)) state)
         = Some ("Service Issue", false))
  /\ (~ key_marked err ->
      JS.includes (GeminiService.message err) "safety" = false ->
      GeminiService.handleGeminiError err = err).
Proof.
  pose proof (handleGeminiError_not_quota err Hquota) as Hclass.
  assert (Hkey : key_marked err <->
                 bool_decide (GeminiService.status err = Some 403)
                 || JS.includes (GeminiService.message err) "leaked"
                 || JS.includes (GeminiService.message err) "PERMISSION_DENIED" = true).
  { unfold key_marked. rewrite !orb_true_iff, bool_decide_eq_true. tauto. }
  split; [|split].
  - intros Hmarked. apply Hkey in Hmarked. rewrite Hmarked in Hclass.
    assert (Hmsg : GeminiService.message (GeminiService.handleGeminiError err)
                   = keyMessage) by by rewrite Hclass.
    split; [done|].
    rewrite (banner_of_error _ keyMessage); [reflexivity| |discriminate].
    cbn -[GeminiService.handleGeminiError JS.or_default]. by rewrite Hmsg.
  - intros Hno Hsafety.
    destruct (_ || _) eqn:Hcond in Hclass; [by destruct Hno; apply Hkey|].
    rewrite Hsafety in Hclass.
    assert (Hmsg : GeminiService.message (GeminiService.handleGeminiError err)
                   = safetyMessage) by by rewrite Hclass.
    split; [done|].
    rewrite (banner_of_error _ safetyMessage); [reflexivity| |discriminate].
    cbn -[GeminiService.handleGeminiError JS.or_default]. by rewrite Hmsg.
  - intros Hno Hsafety.
    destruct (_ || _) eqn:Hcond in Hclass; [by destruct Hno; apply Hkey|].
    by rewrite Hsafety in Hclass.
Qed.

(** A 403 whose message speaks of safety, after an edit of the loaded photo. *)
Lemma error_classes_in_order_witness :
  GeminiService.message (GeminiService.handleGeminiError Demo.key_error) = keyMessage.
Proof.
  assert (Hquota : not_quota Demo.key_error).
  { split; [discriminate|]. split; reflexivity. }
  destruct (error_classes_in_order Demo.key_error Sample.loaded "text-0" "CLOSED" Hquota)
    as [Hkey _].
  apply Hkey. left. reflexivity.
Defined.

End ClassificationFacts.

(** ** A whole edit session *)
Section SessionFacts.
Import EditorOverlay.

(** X23. One session from the click to the commit.  When nothing is
    running, a click on a detected region opens the editor with the text of
    the region; after the user has typed a new text, applying closes the
    editor and calls [onEditText] once, for that region and that text; and
    when the model answers with an image, [App] appends it to the history,
    moves the cursor to it and shows the region with the new text and the
    edited mark.  The model was asked to replace the text the region had. *)
Theorem edit_session_commits
    (ai : App.EditRequest -> GeminiService.Reply)
    (state : Types.AppState) (view : State) (region : Types.DetectedText)
    (typed image : string)
    (Hcursor : cursor_ok state)
    (Hidle : propsOf state = Viewport.idle)
    (Hpan : isPanning view = false)
    (Hregion : App.handleEditText_target state (Types.id region) = Some region)
    (Hid : Types.id region <> "") (Htyped : typed <> "")
    (Hreply : forall req,
        GeminiService.editImageText (ai req) = GeminiService.Resolved (Some image)) :
  let opened := handleBoxClick (propsOf state) region view in
  let filled := setTempText typed opened in
  tempText opened = Types.text region
  /\ exists call,
       handleSubmit filled = (setEditingId None filled, [call])
       /\ App.arg_id call = Types.id region
       /\ App.arg_newText call = typed
       /\ let after := fst (App.handleEditText ai call state) in
          (exists req,
             snd (App.handleEditText ai call state) = [req]
             /\ App.req_originalText req = Types.text region
             /\ App.req_base64Image req = AppShell.imageSrc state)
          /\ Types.history after
             = take (Z.to_nat (Types.historyIndex state + 1)) (Types.history state)
               ++ [image]
          /\ App.currentImage after = Some image
          /\ (exists i,
                Types.detectedTexts state !! i = Some region
                /\ Types.detectedTexts after !! i = Some (edited typed region))
          /\ Types.isEditing (Types.processing after) = false.
Proof.
  intros opened filled.
  assert (Hopened : opened
    = setFontSize 100%Q
        (setUseStroke false
           (setSelectedColor "original"
              (setSelectedFont "original"
                 (setTempText (Types.text region)
                    (setEditingId (Some (Types.id region)) view)))))).
  { unfold opened, handleBoxClick. rewrite Hidle, Hpan. reflexivity. }
  split; [by rewrite Hopened|].
  eexists. split.
  { unfold filled. rewrite Hopened. unfold handleSubmit. simpl.
    destruct (String.eqb_spec (Types.id region) ""); [done|].
    destruct (String.eqb_spec typed ""); [done|]. simpl. reflexivity. }
  split; [done|]. split; [done|]. simpl.
  unfold App.handleEditText. simpl. rewrite Hregion. simpl.
  split; [by eexists|].
  rewrite Hreply. simpl.
  pose proof (editImageText_truthy _ _ (Hreply
    (App.handleEditText_request state region (matchOriginal region)))) as Htruthy.
  simpl in Htruthy. rewrite Htruthy.
  destruct Hcursor as [Hlo Hhi].
  unfold App.handleEditText_target in Hregion.
  destruct (App.findTarget state (Types.id region)) as [found|] eqn:Hfind; [|done].
  destruct (JS.truthy (Types.originalImage state)); [|done].
  injection Hregion as ->.
  apply findTarget_lookup in Hfind as [_ [i Hi]].
  set (after := App.push _ _ _ _).
  assert (Hhistory : Types.history after
            = take (Z.to_nat (Types.historyIndex state + 1)) (Types.history state)
              ++ [image]).
  { unfold after. rewrite push_history by (unfold cursor_ok; simpl; lia). done. }
  assert (Hindex : Types.historyIndex after = Types.historyIndex state + 1).
  { unfold after. rewrite push_cursor. fold after. rewrite Hhistory.
    rewrite length_app, length_take. simpl. lia. }
  split; [done|]. split; [|split; [|done]].
  - unfold App.currentImage, JS.index. rewrite Hindex, Hhistory.
    destruct (0 <=? _) eqn:Hge; [|lia].
    destruct (_ <? 0) eqn:Hneg; [lia|].
    rewrite lookup_app_r by (rewrite length_take; lia).
    rewrite length_take.
    replace (Z.to_nat _ - _)%nat with 0%nat by lia. reflexivity.
  - exists i. split; [done|]. unfold after. simpl. by apply markEdited_lookup.
Qed.

(** The detected region of the loaded photo is clicked, retyped and applied. *)
Lemma edit_session_commits_witness :
  tempText (handleBoxClick (propsOf Sample.loaded)
              (GeminiService.toDetectedText 0 Sample.open_sign) initialState)
  = "OPEN".
Proof.
  assert (Hcursor : cursor_ok Sample.loaded) by (unfold cursor_ok; simpl; lia).
  assert (Hid : Types.id (GeminiService.toDetectedText 0 Sample.open_sign) <> "")
    by (vm_compute; discriminate).
  assert (Htyped : "CLOSED" <> "") by discriminate.
  destruct (edit_session_commits Sample.painter Sample.loaded initialState
              (GeminiService.toDetectedText 0 Sample.open_sign)
              "CLOSED" "data:image/png;base64,BBBB"
              Hcursor eq_refl eq_refl eq_refl Hid Htyped (fun _ => eq_refl))
    as [Htext _].
  exact Htext.
Defined.

End SessionFacts.
